(** * K8TodoFE: the task slice and the views

    A shallow embedding of [src/store/slices/tasksSlice.js] (the five
    asynchronous operations, their payload creators and the slice reducer),
    of the [TaskList] component, and of the event handlers of [TaskItem],
    [TaskForm] and [App], followed by the properties the specification
    states about them and by further properties read off the code.

    Conventions:
    - a task identifier, a title and a timestamp are JavaScript strings;
    - [null] and [undefined] in the error slot are both [None];
    - an Immer draft mutation is a functional record update;
    - the outcome of an [axios] call is an input of the payload creator. *)

From Stdlib Require Import String Ascii ZArith List Bool Lia DecimalString.
From stdpp Require Import base option list strings.

Local Open Scope string_scope.
Local Open Scope list_scope.
Local Open Scope Z_scope.

(** ** JavaScript primitives used by the sources *)

Module Js.

(** Truthiness of a value that is a string, [null] or [undefined]:
    only a non-empty string is truthy. *)
Definition truthy (v : option string) : bool :=
  match v with
  | Some s => negb (String.eqb s "")
  | None => false
  end.

(** [v || d] where [d] is a string. *)
Definition or (v : option string) (d : string) : string :=
  match v with
  | Some s => if truthy v then s else d
  | None => d
  end.

(** [Array.prototype.findIndex]: the first index whose element satisfies
    the callback, [-1] when there is none. *)
Fixpoint findIndex_from {A : Type} (f : A -> bool) (l : list A) (i : Z) : Z :=
  match l with
  | [] => -1
  | x :: l' => if f x then i else findIndex_from f l' (i + 1)
  end.

Definition findIndex {A : Type} (f : A -> bool) (l : list A) : Z :=
  findIndex_from f l 0.

(** [Array.prototype.filter]. *)
Definition filter {A : Type} (f : A -> bool) (l : list A) : list A :=
  List.filter f l.

(** [Array.prototype.unshift] on a draft. *)
Definition unshift {A : Type} (x : A) (l : list A) : list A := x :: l.

(** [arr[index] = v]; the sources only assign at an index returned by
    [findIndex] and different from [-1]. *)
Definition assign {A : Type} (l : list A) (index : Z) (v : A) : list A :=
  <[Z.to_nat index := v]> l.

(** A number interpolated into JSX text. *)
Definition number_text (n : nat) : string :=
  NilEmpty.string_of_uint (Nat.to_uint n).

End Js.

(** ** Data model *)

Record Task := mkTask {
  _id : string;
  title : string;
  description : string;
  completed : bool;
  createdAt : string;
  updatedAt : string
}.

Record TasksState := mkState {
  tasks : list Task;
  loading : bool;
  error : option string
}.

Definition initialState : TasksState :=
  {| tasks := []; loading := false; error := None |}.

(** ** Actions of the slice *)

Inductive Action :=
| clearError
| fetchTasks_pending
| fetchTasks_fulfilled (payload : list Task)
| fetchTasks_rejected (payload : option string)
| addTask_pending
| addTask_fulfilled (payload : Task)
| addTask_rejected (payload : option string)
| updateTask_pending
| updateTask_fulfilled (payload : Task)
| updateTask_rejected (payload : option string)
| toggleTask_pending
| toggleTask_fulfilled (payload : Task)
| toggleTask_rejected (payload : option string)
| deleteTask_pending
| deleteTask_fulfilled (payload : string)
| deleteTask_rejected (payload : option string)
| otherAction.

(** ** Case reducers, in the order of [extraReducers] *)

Module Case.

Definition clearError (state : TasksState) : TasksState :=
  {| tasks := tasks state; loading := loading state; error := None |}.

(** The five pending cases have the same body. *)
Definition pending (state : TasksState) : TasksState :=
  let state := {| tasks := tasks state; loading := true; error := error state |} in
  {| tasks := tasks state; loading := loading state; error := None |}.

(** The five rejected cases have the same body. *)
Definition rejected (state : TasksState) (payload : option string) : TasksState :=
  let state := {| tasks := tasks state; loading := false; error := error state |} in
  {| tasks := tasks state; loading := loading state; error := payload |}.

Definition fetchTasks_fulfilled (state : TasksState) (payload : list Task) : TasksState :=
  let state := {| tasks := tasks state; loading := false; error := error state |} in
  {| tasks := payload; loading := loading state; error := error state |}.

Definition addTask_fulfilled (state : TasksState) (payload : Task) : TasksState :=
  let state := {| tasks := tasks state; loading := false; error := error state |} in
  {| tasks := Js.unshift payload (tasks state);
     loading := loading state; error := error state |}.

(** Shared by [updateTask.fulfilled] and [toggleTask.fulfilled], whose
    bodies are identical. *)
Definition replace_fulfilled (state : TasksState) (payload : Task) : TasksState :=
  let state := {| tasks := tasks state; loading := false; error := error state |} in
  let index :=
    Js.findIndex (fun task => String.eqb (_id task) (_id payload)) (tasks state) in
  if negb (index =? -1) then
    {| tasks := Js.assign (tasks state) index payload;
       loading := loading state; error := error state |}
  else state.

Definition updateTask_fulfilled := replace_fulfilled.
Definition toggleTask_fulfilled := replace_fulfilled.

Definition deleteTask_fulfilled (state : TasksState) (payload : string) : TasksState :=
  let state := {| tasks := tasks state; loading := false; error := error state |} in
  {| tasks := Js.filter (fun task => negb (String.eqb (_id task) payload)) (tasks state);
     loading := loading state; error := error state |}.

End Case.

(** The slice reducer: the case registered for the action's type, the
    state itself for any other action. *)
Definition tasksReducer (state : TasksState) (action : Action) : TasksState :=
  match action with
  | clearError => Case.clearError state
  | fetchTasks_pending => Case.pending state
  | fetchTasks_fulfilled p => Case.fetchTasks_fulfilled state p
  | fetchTasks_rejected p => Case.rejected state p
  | addTask_pending => Case.pending state
  | addTask_fulfilled p => Case.addTask_fulfilled state p
  | addTask_rejected p => Case.rejected state p
  | updateTask_pending => Case.pending state
  | updateTask_fulfilled p => Case.updateTask_fulfilled state p
  | updateTask_rejected p => Case.rejected state p
  | toggleTask_pending => Case.pending state
  | toggleTask_fulfilled p => Case.toggleTask_fulfilled state p
  | toggleTask_rejected p => Case.rejected state p
  | deleteTask_pending => Case.pending state
  | deleteTask_fulfilled p => Case.deleteTask_fulfilled state p
  | deleteTask_rejected p => Case.rejected state p
  | otherAction => state
  end.

(** ** Payload creators of the five thunks *)

Record Response (A : Type) := mkResponse { data : A }.
Arguments mkResponse {A} _.
Arguments data {A} _.

Record ErrorBody := mkErrorBody { message : option string }.

(** What [catch (error)] receives: [response] is absent for a transport
    failure, [data] for a reply without a body, [message] for a body
    without that field. *)
Record AxiosError := mkAxiosError {
  response : option (Response (option ErrorBody))
}.

Inductive Settled (A : Type) :=
| Resolved (r : Response A)
| Thrown (e : AxiosError).
Arguments Resolved {A} _.
Arguments Thrown {A} _.

(** [error.response?.data?.message] *)
Definition response_message (e : AxiosError) : option string :=
  r ← response e; b ← data r; message b.

Record TaskData := mkTaskData { td_title : string; td_description : string }.
Record UpdateArg := mkUpdateArg { id : string; taskData : TaskData }.

Module Thunk.

Definition fetchTasks (res : Settled (list Task)) : Action :=
  match res with
  | Resolved r => fetchTasks_fulfilled (data r)
  | Thrown e =>
      fetchTasks_rejected (Some (Js.or (response_message e) "Failed to fetch tasks"))
  end.

Definition addTask (taskData : TaskData) (res : Settled Task) : Action :=
  match res with
  | Resolved r => addTask_fulfilled (data r)
  | Thrown e =>
      addTask_rejected (Some (Js.or (response_message e) "Failed to add task"))
  end.

Definition updateTask (arg : UpdateArg) (res : Settled Task) : Action :=
  match res with
  | Resolved r => updateTask_fulfilled (data r)
  | Thrown e =>
      updateTask_rejected (Some (Js.or (response_message e) "Failed to update task"))
  end.

Definition toggleTask (id : string) (res : Settled Task) : Action :=
  match res with
  | Resolved r => toggleTask_fulfilled (data r)
  | Thrown e =>
      toggleTask_rejected (Some (Js.or (response_message e) "Failed to toggle task"))
  end.

(** The response of the DELETE call is awaited and dropped: the
    fulfilled payload is the argument. *)
Definition deleteTask {B : Type} (id : string) (res : Settled B) : Action :=
  match res with
  | Resolved _ => deleteTask_fulfilled id
  | Thrown e =>
      deleteTask_rejected (Some (Js.or (response_message e) "Failed to delete task"))
  end.

End Thunk.

(** A dispatched thunk reaches the reducer twice: its pending action when
    the request is issued, and the action of its payload creator when the
    request settles. *)
Inductive Operation := OpFetch | OpCreate | OpUpdate | OpToggle | OpDelete.

Definition pending_of (op : Operation) : Action :=
  match op with
  | OpFetch => fetchTasks_pending
  | OpCreate => addTask_pending
  | OpUpdate => updateTask_pending
  | OpToggle => toggleTask_pending
  | OpDelete => deleteTask_pending
  end.

Definition rejected_of (op : Operation) (payload : option string) : Action :=
  match op with
  | OpFetch => fetchTasks_rejected payload
  | OpCreate => addTask_rejected payload
  | OpUpdate => updateTask_rejected payload
  | OpToggle => toggleTask_rejected payload
  | OpDelete => deleteTask_rejected payload
  end.

Definition default_message (op : Operation) : string :=
  match op with
  | OpFetch => "Failed to fetch tasks"
  | OpCreate => "Failed to add task"
  | OpUpdate => "Failed to update task"
  | OpToggle => "Failed to toggle task"
  | OpDelete => "Failed to delete task"
  end.

(** A request as the views dispatch it, and the action its thunk yields
    when the request fails with [e]. *)
Inductive Request :=
| ReqFetch
| ReqCreate (taskData : TaskData)
| ReqUpdate (arg : UpdateArg)
| ReqToggle (id : string)
| ReqDelete (id : string).

Definition operation_of (rq : Request) : Operation :=
  match rq with
  | ReqFetch => OpFetch
  | ReqCreate _ => OpCreate
  | ReqUpdate _ => OpUpdate
  | ReqToggle _ => OpToggle
  | ReqDelete _ => OpDelete
  end.

Definition failing (rq : Request) (e : AxiosError) : Action :=
  match rq with
  | ReqFetch => Thunk.fetchTasks (Thrown e)
  | ReqCreate taskData => Thunk.addTask taskData (Thrown e)
  | ReqUpdate arg => Thunk.updateTask arg (Thrown e)
  | ReqToggle id => Thunk.toggleTask id (Thrown e)
  | ReqDelete id => Thunk.deleteTask (B := unit) id (Thrown e)
  end.

Inductive is_fulfilled : Action -> Prop :=
| ful_fetch p : is_fulfilled (fetchTasks_fulfilled p)
| ful_add p : is_fulfilled (addTask_fulfilled p)
| ful_update p : is_fulfilled (updateTask_fulfilled p)
| ful_toggle p : is_fulfilled (toggleTask_fulfilled p)
| ful_delete p : is_fulfilled (deleteTask_fulfilled p).

Inductive is_rejected : Action -> Prop :=
| rej_intro op p : is_rejected (rejected_of op p).

(** ** The list view ([TaskList]) *)

Local Set Warnings "-register-all".

Inductive Node :=
| Div (className : string) (children : list Node)
| P (text : string)
| H2 (className : string) (text : string)
| H3 (text : string)
| TaskItem (task : Task).

Definition task_section (heading : string) (group : list Task) : Node :=
  Div "task-section"
    (H2 "section-title"
       (heading ++ " (" ++ Js.number_text (length group) ++ ")")%string
     :: map TaskItem group).

(** [cond && (<div .../>)] as a child: the element, or nothing. *)
Definition when (cond : bool) (n : Node) : list Node :=
  if cond then [n] else [].

(** The component, as the element tree it returns; the glyph inside the
    [empty-icon] element and the [key] and [onEdit] props of the rows are
    left out. *)
Definition TaskList (state : TasksState) : Node :=
  if loading state then
    Div "task-list" [Div "loading" [Div "spinner" []; P "Loading tasks..."]]
  else if Js.truthy (error state) then
    Div "task-list" [Div "error" [P ("Error: " ++ default "" (error state))%string]]
  else if (Z.of_nat (length (tasks state)) =? 0) then
    Div "task-list"
      [Div "empty-state"
         [Div "empty-icon" []; H3 "No tasks yet";
          P "Add your first task to get started!"]]
  else
    let completedTasks := Js.filter (fun task => completed task) (tasks state) in
    let pendingTasks := Js.filter (fun task => negb (completed task)) (tasks state) in
    Div "task-list"
      (when (0 <? Z.of_nat (length pendingTasks))
         (task_section "Pending Tasks" pendingTasks)
       ++ when (0 <? Z.of_nat (length completedTasks))
            (task_section "Completed Tasks" completedTasks)).

(** The class names of the children of an element: what tells the four
    renderings of the list view apart. *)
Definition class_of (n : Node) : string :=
  match n with
  | Div c _ => c
  | H2 c _ => c
  | P _ | H3 _ | TaskItem _ => ""
  end.

Definition child_classes (n : Node) : list string :=
  match n with
  | Div _ children => map class_of children
  | _ => []
  end.

(** ** Runs of the slice *)

(** A sequence of create requests, each answered with the record the
    server made of it. *)
Definition run_creates (state : TasksState)
    (created : list (TaskData * Response Task)) : TasksState :=
  fold_left
    (fun s c => tasksReducer s (Thunk.addTask (fst c) (Resolved (snd c))))
    created state.

(** The callback of [findIndex] in the update and toggle cases. *)
Definition has_id (ident : string) (task : Task) : bool :=
  String.eqb (_id task) ident.

(** The number of entries of a list that carry a given identifier. *)
Definition occurrences (ident : string) (l : list Task) : nat :=
  length (Js.filter (fun task => String.eqb (_id task) ident) l).

(** The actions the store receives from the application: [clearError] and
    what the five thunks dispatch. *)
Inductive dispatched : Action -> Prop :=
| disp_clearError : dispatched clearError
| disp_pending op : dispatched (pending_of op)
| disp_fetch res : dispatched (Thunk.fetchTasks res)
| disp_add taskData res : dispatched (Thunk.addTask taskData res)
| disp_update arg res : dispatched (Thunk.updateTask arg res)
| disp_toggle id res : dispatched (Thunk.toggleTask id res)
| disp_delete (B : Type) id (res : Settled B) :
    dispatched (Thunk.deleteTask id res).

Inductive reachable : TasksState -> Prop :=
| reach_init : reachable initialState
| reach_step state action :
    reachable state -> dispatched action ->
    reachable (tasksReducer state action).

(** ** Sample data, from the repository's tests of the list view *)

Module Fixture.

Definition task1 : Task :=
  mkTask "1" "Pending Task 1" "Description 1" false
    "2023-01-01T00:00:00.000Z" "2023-01-01T00:00:00.000Z".
Definition task2 : Task :=
  mkTask "2" "Pending Task 2" "Description 2" false
    "2023-01-02T00:00:00.000Z" "2023-01-02T00:00:00.000Z".
Definition task3 : Task :=
  mkTask "3" "Completed Task 1" "Description 3" true
    "2023-01-03T00:00:00.000Z" "2023-01-03T00:00:00.000Z".

Definition mockTasks : list Task := [task1; task2; task3].

Definition loaded : TasksState := mkState mockTasks false None.

(** [task2] as the server returns it once toggled. *)
Definition task2_done : Task :=
  mkTask "2" "Pending Task 2" "Description 2" true
    "2023-01-02T00:00:00.000Z" "2023-01-04T00:00:00.000Z".

(** A record the list does not hold. *)
Definition task9 : Task :=
  mkTask "9" "Elsewhere" "" false
    "2023-01-09T00:00:00.000Z" "2023-01-09T00:00:00.000Z".

(** A list in which the identifier ["2"] occurs twice. *)
Definition duplicated : TasksState :=
  mkState [task1; task2; task3; task2] false None.

(** A failure whose reply carries [message], and one without a reply. *)
Definition server_error (m : string) : AxiosError :=
  mkAxiosError (Some (mkResponse (Some (mkErrorBody (Some m))))).
Definition network_error : AxiosError := mkAxiosError None.

End Fixture.

(** ** [String.prototype.trim]

    A string is read as its UTF-8 bytes. [white_space] lists the
    encodings of the code points ECMAScript strips: WhiteSpace (TAB, VT,
    FF, SP, NBSP, ZWNBSP and the other space separators) and
    LineTerminator (LF, CR, LS, PS). *)

Module JsString.

Definition bytes (l : list nat) : list ascii := map ascii_of_nat l.

Definition white_space : list (list ascii) :=
  map bytes
    [ [9%nat]; [10%nat]; [11%nat]; [12%nat]; [13%nat]; [32%nat];
      [194; 160]%nat; [225; 154; 128]%nat;
      [226; 128; 128]%nat; [226; 128; 129]%nat; [226; 128; 130]%nat;
      [226; 128; 131]%nat; [226; 128; 132]%nat; [226; 128; 133]%nat;
      [226; 128; 134]%nat; [226; 128; 135]%nat; [226; 128; 136]%nat;
      [226; 128; 137]%nat; [226; 128; 138]%nat;
      [226; 128; 168]%nat; [226; 128; 169]%nat; [226; 128; 175]%nat;
      [226; 129; 159]%nat; [227; 128; 128]%nat; [239; 187; 191]%nat ].

(** What follows [p] in [s], when [s] starts with [p]. *)
Fixpoint strip_prefix (p s : list ascii) : option (list ascii) :=
  match p with
  | [] => Some s
  | a :: p' =>
      match s with
      | b :: s' => if Ascii.eqb a b then strip_prefix p' s' else None
      | [] => None
      end
  end.

Fixpoint strip_first (ps : list (list ascii)) (s : list ascii) : option (list ascii) :=
  match ps with
  | [] => None
  | p :: ps' =>
      match strip_prefix p s with
      | Some r => Some r
      | None => strip_first ps' s
      end
  end.

(** Strip patterns of [ps] off the front of [s] as long as one is there;
    [fuel] bounds the number of patterns stripped. *)
Fixpoint strip_leading (ps : list (list ascii)) (fuel : nat) (s : list ascii)
  : list ascii :=
  match fuel with
  | O => s
  | S fuel' =>
      match strip_first ps s with
      | Some r => strip_leading ps fuel' r
      | None => s
      end
  end.

Definition trimStart_bytes (s : list ascii) : list ascii :=
  strip_leading white_space (length s) s.

Definition trimEnd_bytes (s : list ascii) : list ascii :=
  rev (strip_leading (map (@rev ascii) white_space) (length s) (rev s)).

Definition trim (s : string) : string :=
  string_of_list_ascii
    (trimEnd_bytes (trimStart_bytes (list_ascii_of_string s))).

(** The concatenations of patterns of [ps]; with [white_space], the
    texts made of white space only. *)
Inductive blank_of (ps : list (list ascii)) : list ascii -> Prop :=
| blank_nil : blank_of ps []
| blank_cons t s : In t ps -> blank_of ps s -> blank_of ps (t ++ s).

Definition blank (s : string) : Prop :=
  blank_of white_space (list_ascii_of_string s).

(** A visible ASCII character: a byte from ["!"] to ["~"]. *)
Definition visible (c : ascii) : bool :=
  (32 <? nat_of_ascii c)%nat && (nat_of_ascii c <? 127)%nat.

End JsString.

(** ** Event handlers of the views

    A handler is a function of the component's props and local state, of
    the user's answer where it asks for one, and of the outcome of the
    request it issues; it returns what it does, in order, and the local
    state it leaves. *)

Inductive Effect :=
| PreventDefault
| Alert (text : string)
| Confirm (text : string)
| Dispatch (action : Action)
| Send (rq : Request)
| ConsoleError (label : string) (value : option string)
| OnCancel
| OnEdit (task : Task).

(** [dispatch(thunk(arg))]: the pending action reaches the store, the
    request goes out, and the settled action reaches the store. *)
Definition dispatchThunk (rq : Request) (settled : Action) : list Effect :=
  [Dispatch (pending_of (operation_of rq)); Send rq; Dispatch settled].

(** [.unwrap()] of a dispatched thunk: what it throws, if it throws. *)
Definition unwrap (settled : Action) : option (option string) :=
  match settled with
  | fetchTasks_rejected p | addTask_rejected p | updateTask_rejected p
  | toggleTask_rejected p | deleteTask_rejected p => Some p
  | _ => None
  end.

(** The store after the actions among [effects] went through the reducer. *)
Fixpoint store_after (state : TasksState) (effects : list Effect) : TasksState :=
  match effects with
  | [] => state
  | Dispatch action :: rest => store_after (tasksReducer state action) rest
  | _ :: rest => store_after state rest
  end.

(** The requests among [effects]. *)
Fixpoint requests (effects : list Effect) : list Request :=
  match effects with
  | [] => []
  | Send rq :: rest => rq :: requests rest
  | _ :: rest => requests rest
  end.

(** *** [TaskForm] *)

Module Form.

Record State := mkForm { title_ : string; description_ : string }.

(** The two [useState] seeds. *)
Definition init (task : option Task) : State :=
  match task with
  | Some t => mkForm (title t) (description t)
  | None => mkForm "" ""
  end.

(** [onCancel] says whether the prop was supplied. *)
Definition handleSubmit (task : option Task) (onCancel : bool) (st : State)
    (res : Settled Task) : list Effect * State :=
  if String.eqb (JsString.trim (title_ st)) "" then
    ([PreventDefault; Alert "Please enter a task title"], st)
  else
    let taskData :=
      mkTaskData (JsString.trim (title_ st)) (JsString.trim (description_ st)) in
    let rq :=
      match task with
      | Some t => ReqUpdate (mkUpdateArg (_id t) taskData)
      | None => ReqCreate taskData
      end in
    let settled :=
      match task with
      | Some t => Thunk.updateTask (mkUpdateArg (_id t) taskData) res
      | None => Thunk.addTask taskData res
      end in
    match unwrap settled with
    | None =>
        (PreventDefault :: dispatchThunk rq settled
           ++ (if onCancel then [OnCancel] else []),
         mkForm "" "")
    | Some e =>
        (PreventDefault :: dispatchThunk rq settled
           ++ [ConsoleError "Error saving task:" e],
         st)
    end.

End Form.

(** *** [TaskItem] *)

Module Item.

Definition handleToggle (task : Task) (res : Settled Task) : list Effect :=
  let settled := Thunk.toggleTask (_id task) res in
  dispatchThunk (ReqToggle (_id task)) settled
  ++ match unwrap settled with
     | Some e => [ConsoleError "Error toggling task:" e]
     | None => []
     end.

(** [confirmed] is the answer to [window.confirm]; the second component
    is [isDeleting] once the handler is through. *)
Definition handleDelete {B : Type} (task : Task) (confirmed : bool)
    (res : Settled B) (isDeleting : bool) : list Effect * bool :=
  if confirmed then
    let isDeleting := true in
    let settled := Thunk.deleteTask (_id task) res in
    match unwrap settled with
    | None =>
        (Confirm "Are you sure you want to delete this task?"
           :: dispatchThunk (ReqDelete (_id task)) settled,
         isDeleting)
    | Some e =>
        (Confirm "Are you sure you want to delete this task?"
           :: dispatchThunk (ReqDelete (_id task)) settled
           ++ [ConsoleError "Error deleting task:" e],
         false)
    end
  else ([Confirm "Are you sure you want to delete this task?"], isDeleting).


End Item.

(** *** [App] *)

Module App.

Record State := mkApp { showTaskForm : bool; editingTask : option Task }.

Definition init : State := mkApp false None.

Definition handleAddTask (st : State) : State :=
  let st := mkApp (showTaskForm st) None in
  mkApp true (editingTask st).

Definition handleEditTask (task : Task) (st : State) : State :=
  let st := mkApp (showTaskForm st) (Some task) in
  mkApp true (editingTask st).

Definition handleCloseTaskForm (st : State) : State :=
  let st := mkApp false (editingTask st) in
  mkApp (showTaskForm st) None.

(** The mount effect: [dispatch(fetchTasks())]. *)
Definition mount (res : Settled (list Task)) : list Effect :=
  dispatchThunk ReqFetch (Thunk.fetchTasks res).

(** The close button of the error banner. *)
Definition dismiss : list Effect := [Dispatch clearError].

(** The three numbers of the header: pending, completed, total. *)
Definition stats (state : TasksState) : nat * nat * nat :=
  let completedTasks := Js.filter (fun task => completed task) (tasks state) in
  let pendingTasks := Js.filter (fun task => negb (completed task)) (tasks state) in
  (length pendingTasks, length completedTasks, length (tasks state)).

(** The text of the error banner, when it is rendered. *)
Definition banner (state : TasksState) : option string :=
  if Js.truthy (error state) then error state else None.

(** The [task] prop of the form, when the form is rendered. *)
Definition form (st : State) : option (option Task) :=
  if showTaskForm st then Some (editingTask st) else None.

(** What the callbacks among [effects] do to the root view: a row's
    [onEdit] is [handleEditTask], the form's [onCancel] is
    [handleCloseTaskForm]. *)
Fixpoint after (st : State) (effects : list Effect) : State :=
  match effects with
  | [] => st
  | OnEdit task :: rest => after (handleEditTask task st) rest
  | OnCancel :: rest => after (handleCloseTaskForm st) rest
  | _ :: rest => after st rest
  end.

Inductive Event :=
| AddClicked
| EditClicked (task : Task)
| FormClosed.

Definition handle (st : State) (ev : Event) : State :=
  match ev with
  | AddClicked => handleAddTask st
  | EditClicked task => handleEditTask task st
  | FormClosed => handleCloseTaskForm st
  end.

End App.

(** The tasks a rendering shows, in document order. *)
Fixpoint rows (n : Node) : list Task :=
  match n with
  | Div _ children => List.flat_map rows children
  | TaskItem task => [task]
  | P _ | H2 _ _ | H3 _ => []
  end.

(** The texts of the section titles of a rendering, in document order. *)
Fixpoint headings (n : Node) : list string :=
  match n with
  | Div _ children => List.flat_map headings children
  | H2 _ text => [text]
  | P _ | H3 _ | TaskItem _ => []
  end.

(** ** Auxiliary facts about the array primitives *)

Section ArrayFacts.

Context {A : Type}.
Variable f : A -> bool.

(** No element satisfies the callback: [findIndex] answers [-1]. *)
Lemma findIndex_from_absent (l : list A) (i : Z) :
  Forall (fun x => f x = false) l -> Js.findIndex_from f l i = -1.
Proof.
  intros H. revert i. induction H as [|x l Hx _ IH]; intros i; simpl.
  - reflexivity.
  - rewrite Hx. apply IH.
Qed.

(** The first element that satisfies the callback is at the index
    [findIndex] answers. *)
Lemma findIndex_from_first (l1 l2 : list A) (x : A) (i : Z) :
  Forall (fun y => f y = false) l1 -> f x = true ->
  Js.findIndex_from f (l1 ++ x :: l2) i = i + Z.of_nat (length l1).
Proof.
  intros H Hx. revert i. induction H as [|y l Hy _ IH]; intros i; simpl.
  - rewrite Hx. lia.
  - rewrite Hy, IH. lia.
Qed.

(** A list splits at the first element that satisfies the callback. *)
Lemma first_match_split (l : list A) :
  Forall (fun x => f x = false) l \/
  exists l1 x l2,
    l = l1 ++ x :: l2 /\ Forall (fun y => f y = false) l1 /\ f x = true.
Proof.
  induction l as [|x l IH].
  - left. constructor.
  - destruct (f x) eqn:Hx.
    + right. exists [], x, l. repeat split; [constructor | exact Hx].
    + destruct IH as [H | (l1 & y & l2 & -> & H1 & Hy)].
      * left. constructor; assumption.
      * right. exists (x :: l1), y, l2.
        repeat split; [constructor; assumption | exact Hy].
Qed.

Lemma assign_middle (l1 l2 : list A) (x v : A) :
  Js.assign (l1 ++ x :: l2) (Z.of_nat (length l1)) v = l1 ++ v :: l2.
Proof.
  unfold Js.assign. rewrite Nat2Z.id.
  induction l1 as [|y l1 IH]; simpl; [reflexivity | now rewrite IH].
Qed.

Lemma filter_keep_all (l : list A) :
  Forall (fun x => f x = true) l -> Js.filter f l = l.
Proof.
  unfold Js.filter. induction 1 as [|x l Hx _ IH]; simpl.
  - reflexivity.
  - now rewrite Hx, IH.
Qed.

Lemma filter_app (l1 l2 : list A) :
  Js.filter f (l1 ++ l2) = Js.filter f l1 ++ Js.filter f l2.
Proof. unfold Js.filter. apply List.filter_app. Qed.

Lemma filter_length_split (l : list A) :
  (length (Js.filter f l) + length (Js.filter (fun x => negb (f x)) l)
   = length l)%nat.
Proof.
  unfold Js.filter. induction l as [|x l IH]; simpl.
  - reflexivity.
  - destruct (f x); simpl; lia.
Qed.

End ArrayFacts.

(** ** Flags and the error slot *)

Lemma pending_of_case (state : TasksState) (op : Operation) :
  tasksReducer state (pending_of op) = Case.pending state.
Proof. destruct op; reflexivity. Qed.

Lemma rejected_of_case (state : TasksState) (op : Operation) (p : option string) :
  tasksReducer state (rejected_of op p) = Case.rejected state p.
Proof. destruct op; reflexivity. Qed.

Lemma replace_fulfilled_loading (state : TasksState) (payload : Task) :
  loading (Case.replace_fulfilled state payload) = false.
Proof.
  unfold Case.replace_fulfilled. cbv zeta.
  destruct (negb _); reflexivity.
Qed.

(** C3. Whatever the slice state holds, the pending transition of fetch,
    create, update, toggle and delete leaves the error slot empty (and
    raises the loading flag, the task list being kept): the error of an
    earlier failure never survives the start of a new operation. *)
Theorem pending_clears_error (state : TasksState) (op : Operation) :
  error (tasksReducer state (pending_of op)) = None /\
  loading (tasksReducer state (pending_of op)) = true /\
  tasks (tasksReducer state (pending_of op)) = tasks state.
Proof. rewrite pending_of_case. repeat split. Qed.

(** C5. For each of the five operations the rejected transition keeps the
    task list as it was, element for element; it stores the payload in
    the error slot and lowers the loading flag. The same holds for the
    action a thunk itself yields on a failed request. *)
Theorem rejected_keeps_tasks (state : TasksState) :
  (forall (op : Operation) (payload : option string),
      tasks (tasksReducer state (rejected_of op payload)) = tasks state /\
      error (tasksReducer state (rejected_of op payload)) = payload /\
      loading (tasksReducer state (rejected_of op payload)) = false) /\
  (forall (rq : Request) (e : AxiosError),
      tasks (tasksReducer state (failing rq e)) = tasks state /\
      loading (tasksReducer state (failing rq e)) = false).
Proof.
  split.
  - intros op payload. rewrite rejected_of_case. repeat split.
  - intros [| td | arg | i | i] e; repeat split.
Qed.

(** C8. [clearError] empties the error slot and keeps the task list and
    the loading flag; applying it twice is applying it once, and on a
    state whose error slot is already empty it changes nothing. *)
Theorem clearError_idempotent (state : TasksState) :
  error (tasksReducer state clearError) = None /\
  tasks (tasksReducer state clearError) = tasks state /\
  loading (tasksReducer state clearError) = loading state /\
  tasksReducer (tasksReducer state clearError) clearError
    = tasksReducer state clearError /\
  (forall (l : list Task) (b : bool),
      tasksReducer (mkState l b None) clearError = mkState l b None).
Proof. repeat split. Qed.

(** C10. Every fulfilled and every rejected transition of the five
    operations ends with the loading flag down, whatever the state was;
    in particular when two operations were started and only one of them
    has completed: the flag does not count the requests in flight. *)
Theorem completion_lowers_loading (state : TasksState) (action : Action) :
  is_fulfilled action \/ is_rejected action ->
  loading (tasksReducer state action) = false /\
  (forall op1 op2 : Operation,
      loading (tasksReducer state (pending_of op1)) = true /\
      loading (tasksReducer (tasksReducer state (pending_of op1)) (pending_of op2))
        = true /\
      loading
        (tasksReducer
           (tasksReducer (tasksReducer state (pending_of op1)) (pending_of op2))
           action) = false).
Proof.
  assert (Hdown : forall s, is_fulfilled action \/ is_rejected action ->
                            loading (tasksReducer s action) = false).
  { intros s [H | H].
    - destruct H; simpl; try reflexivity; apply replace_fulfilled_loading.
    - destruct H. rewrite rejected_of_case. reflexivity. }
  intros H. split; [now apply Hdown |].
  intros op1 op2. rewrite !pending_of_case.
  repeat split. now apply Hdown.
Qed.

Lemma completion_lowers_loading_witness :
  (is_fulfilled (toggleTask_fulfilled (mkTask "1" "Task 1" "" true "" ""))
   \/ is_rejected (toggleTask_fulfilled (mkTask "1" "Task 1" "" true "" ""))) /\
  loading
    (tasksReducer
       (tasksReducer (tasksReducer initialState (pending_of OpToggle))
          (pending_of OpDelete))
       (toggleTask_fulfilled (mkTask "1" "Task 1" "" true "" ""))) = false.
Proof.
  split.
  - left. constructor.
  - apply (completion_lowers_loading initialState
             (toggleTask_fulfilled (mkTask "1" "Task 1" "" true "" ""))).
    left. constructor.
Defined.

(** ** Create *)

Lemma run_creates_tasks (created : list (TaskData * Response Task)) :
  forall state : TasksState,
    tasks (run_creates state created)
    = rev (map (fun c => data (snd c)) created) ++ tasks state.
Proof.
  unfold run_creates.
  induction created as [|c created IH]; intros state; simpl.
  - reflexivity.
  - rewrite IH. simpl. unfold Js.unshift. now rewrite <- app_assoc.
Qed.

(** C2. A fulfilled create puts the returned record at the front of the
    list and keeps the earlier entries behind it in their order; so
    along any sequence of fulfilled creates, from any list, the first
    element after each one is the task created last. *)
Theorem create_fulfilled_prepends (state : TasksState)
    (created : list (TaskData * Response Task))
    (taskData : TaskData) (r : Response Task) :
  tasks (tasksReducer state (Thunk.addTask taskData (Resolved r)))
    = data r :: tasks state /\
  tasks (run_creates state (created ++ [(taskData, r)]))
    = data r :: tasks (run_creates state created) /\
  head (tasks (run_creates state (created ++ [(taskData, r)]))) = Some (data r) /\
  tasks (run_creates state created)
    = rev (map (fun c => data (snd c)) created) ++ tasks state.
Proof.
  assert (Hlast : tasks (run_creates state (created ++ [(taskData, r)]))
                  = data r :: tasks (run_creates state created)).
  { unfold run_creates. rewrite fold_left_app. reflexivity. }
  repeat split.
  - exact Hlast.
  - now rewrite Hlast.
  - apply run_creates_tasks.
Qed.

(** ** Identifiers in a task list *)

Lemma no_match_iff (ident : string) (l : list Task) :
  Forall (fun t => has_id ident t = false) l <-> ~ In ident (map _id l).
Proof.
  unfold has_id. induction l as [|t l IH]; simpl.
  - split; [intros _ [] | constructor].
  - split.
    + intros H. apply Forall_cons_1 in H. destruct H as [Ht Hl].
      apply String.eqb_neq in Ht. intros [E | HIn]; [congruence |].
      now apply IH.
    + intros H. constructor.
      * apply String.eqb_neq. intros E. apply H. now left.
      * apply IH. intros HIn. apply H. now right.
  Qed.

(** A list that holds an identifier splits at its first holder. *)
Lemma split_at_first_id (ident : string) (l : list Task) :
  In ident (map _id l) ->
  exists before t after,
    l = before ++ t :: after /\ _id t = ident /\ ~ In ident (map _id before).
Proof.
  intros HIn.
  destruct (first_match_split (has_id ident) l) as [H | (l1 & t & l2 & -> & H1 & Ht)].
  - apply no_match_iff in H. contradiction.
  - exists l1, t, l2. repeat split.
    + now apply String.eqb_eq in Ht.
    + now apply no_match_iff.
Qed.

Lemma filter_other_ids (ident : string) (l : list Task) :
  ~ In ident (map _id l) ->
  Js.filter (fun task => negb (String.eqb (_id task) ident)) l = l.
Proof.
  intros H. apply filter_keep_all. apply no_match_iff in H.
  eapply Forall_impl; [exact H |].
  unfold has_id. intros t Ht. simpl in Ht. now rewrite Ht.
Qed.

Lemma filter_drops_id (ident : string) (l : list Task) :
  ~ In ident (map _id (Js.filter (fun task => negb (String.eqb (_id task) ident)) l)).
Proof.
  unfold Js.filter. rewrite in_map_iff. intros (t & E & Ht).
  apply List.filter_In in Ht. destruct Ht as [_ Ht].
  apply negb_true_iff, String.eqb_neq in Ht. contradiction.
Qed.

Lemma delete_split (ident : string) (before after : list Task) (t : Task) :
  _id t = ident -> ~ In ident (map _id before) ->
  Js.filter (fun task => negb (String.eqb (_id task) ident)) (before ++ t :: after)
  = before ++ Js.filter (fun task => negb (String.eqb (_id task) ident)) after.
Proof.
  intros Ht Hb. rewrite filter_app, (filter_other_ids ident before Hb).
  unfold Js.filter at 1. simpl. rewrite Ht, String.eqb_refl. reflexivity.
Qed.

Lemma replace_absent (state : TasksState) (payload : Task) :
  ~ In (_id payload) (map _id (tasks state)) ->
  tasks (Case.replace_fulfilled state payload) = tasks state.
Proof.
  intros H. apply no_match_iff in H.
  unfold Case.replace_fulfilled, Js.findIndex. cbv zeta. simpl tasks.
  change (Js.findIndex_from _ (tasks state) 0)
    with (Js.findIndex_from (has_id (_id payload)) (tasks state) 0).
  rewrite (findIndex_from_absent _ _ 0 H). reflexivity.
Qed.

Lemma replace_first (state : TasksState) (payload t : Task)
    (before after : list Task) :
  tasks state = before ++ t :: after ->
  _id t = _id payload ->
  ~ In (_id payload) (map _id before) ->
  tasks (Case.replace_fulfilled state payload) = before ++ payload :: after.
Proof.
  intros E Ht Hb. apply no_match_iff in Hb.
  unfold Case.replace_fulfilled, Js.findIndex. cbv zeta. simpl tasks.
  rewrite E.
  change (Js.findIndex_from _ (before ++ t :: after) 0)
    with (Js.findIndex_from (has_id (_id payload)) (before ++ t :: after) 0).
  rewrite (findIndex_from_first (has_id (_id payload)) before after t 0 Hb)
    by (unfold has_id; rewrite Ht; apply String.eqb_refl).
  replace (negb (0 + Z.of_nat (length before) =? -1)) with true
    by (symmetry; apply negb_true_iff, Z.eqb_neq; lia).
  simpl tasks. rewrite Z.add_0_l. apply assign_middle.
Qed.

(** ** Delete *)

(** C1. When the identifier dispatched with a delete occurs in the list
    and identifiers are unique, the fulfilled delete removes the one
    entry that carries it and nothing else: the list before and after
    that entry is kept in order, the length goes down by one, and the
    identifier is gone. The body of the server's reply plays no part:
    the statement holds for every reply. *)
Theorem delete_fulfilled_removes_dispatched
    (B : Type) (state : TasksState) (ident : string) (r : Response B) :
  In ident (map _id (tasks state)) ->
  List.NoDup (map _id (tasks state)) ->
  exists before t after,
    tasks state = before ++ t :: after /\
    _id t = ident /\
    tasks (tasksReducer state (Thunk.deleteTask ident (Resolved r)))
      = before ++ after /\
    S (length (tasks (tasksReducer state (Thunk.deleteTask ident (Resolved r)))))
      = length (tasks state) /\
    ~ In ident
        (map _id (tasks (tasksReducer state (Thunk.deleteTask ident (Resolved r))))).
Proof.
  intros HIn Hnd.
  destruct (split_at_first_id ident _ HIn) as (before & t & after & E & Ht & Hb).
  assert (Ha : ~ In ident (map _id after)).
  { rewrite E, map_app in Hnd. simpl in Hnd.
    apply List.NoDup_remove_2 in Hnd. rewrite Ht in Hnd.
    intros H. apply Hnd. apply in_or_app. now right. }
  assert (Hres : tasks (tasksReducer state (Thunk.deleteTask ident (Resolved r)))
                 = before ++ after).
  { simpl. rewrite E, (delete_split ident before after t Ht Hb).
    now rewrite (filter_other_ids ident after Ha). }
  exists before, t, after. rewrite Hres. repeat split; try assumption.
  - rewrite E, !length_app. simpl. lia.
  - rewrite map_app. intros H. apply in_app_or in H. tauto.
Qed.

Lemma delete_fulfilled_removes_dispatched_witness :
  In "2" (map _id (tasks Fixture.loaded)) /\
  List.NoDup (map _id (tasks Fixture.loaded)) /\
  exists before t after,
    tasks Fixture.loaded = before ++ t :: after /\
    _id t = "2" /\
    tasks (tasksReducer Fixture.loaded
             (Thunk.deleteTask "2" (Resolved (mkResponse Fixture.task1))))
      = before ++ after /\
    S (length
         (tasks (tasksReducer Fixture.loaded
                   (Thunk.deleteTask "2" (Resolved (mkResponse Fixture.task1))))))
      = length (tasks Fixture.loaded) /\
    ~ In "2"
        (map _id
           (tasks (tasksReducer Fixture.loaded
                     (Thunk.deleteTask "2" (Resolved (mkResponse Fixture.task1)))))).
Proof.
  assert (HIn : In "2" (map _id (tasks Fixture.loaded))).
  { simpl. right. left. reflexivity. }
  assert (Hnd : List.NoDup (map _id (tasks Fixture.loaded))).
  { simpl. repeat constructor; simpl; intuition discriminate. }
  split; [exact HIn | split; [exact Hnd |]].
  exact (delete_fulfilled_removes_dispatched Task Fixture.loaded "2"
           (mkResponse Fixture.task1) HIn Hnd).
Defined.

(** ** Update and toggle *)

(** C6. A fulfilled update or toggle whose returned record carries an
    identifier the list does not hold leaves the list as it was, nothing
    being inserted; when the list holds the identifier, the entry that
    carries it (the first one) is replaced where it stands by the
    returned record, the entries before and after it being kept in their
    order, so the length is kept too. *)
Theorem replace_fulfilled_in_place
    (state : TasksState) (arg : UpdateArg) (ident : string)
    (r : Response Task) (action : Action) :
  action = Thunk.updateTask arg (Resolved r) \/
  action = Thunk.toggleTask ident (Resolved r) ->
  (~ In (_id (data r)) (map _id (tasks state)) ->
   tasks (tasksReducer state action) = tasks state) /\
  (In (_id (data r)) (map _id (tasks state)) ->
   exists before t after,
     tasks state = before ++ t :: after /\
     _id t = _id (data r) /\
     ~ In (_id (data r)) (map _id before) /\
     tasks (tasksReducer state action) = before ++ data r :: after /\
     length (tasks (tasksReducer state action)) = length (tasks state)).
Proof.
  intros Ha.
  assert (E : tasksReducer state action = Case.replace_fulfilled state (data r)).
  { destruct Ha as [-> | ->]; reflexivity. }
  rewrite E. split.
  - apply replace_absent.
  - intros HIn.
    destruct (split_at_first_id _ _ HIn) as (before & t & after & Et & Ht & Hb).
    exists before, t, after.
    rewrite (replace_first state (data r) t before after Et Ht Hb).
    repeat split; try assumption.
    rewrite Et, !length_app. reflexivity.
Qed.

Lemma replace_fulfilled_in_place_witness :
  tasks (tasksReducer Fixture.loaded
           (Thunk.updateTask (mkUpdateArg "9" (mkTaskData "Elsewhere" ""))
              (Resolved (mkResponse Fixture.task9))))
    = tasks Fixture.loaded /\
  exists before t after,
    tasks Fixture.loaded = before ++ t :: after /\
    _id t = _id Fixture.task2_done /\
    ~ In (_id Fixture.task2_done) (map _id before) /\
    tasks (tasksReducer Fixture.loaded
             (Thunk.toggleTask "2" (Resolved (mkResponse Fixture.task2_done))))
      = before ++ Fixture.task2_done :: after /\
    length (tasks (tasksReducer Fixture.loaded
                     (Thunk.toggleTask "2"
                        (Resolved (mkResponse Fixture.task2_done)))))
      = length (tasks Fixture.loaded).
Proof.
  split.
  - apply (replace_fulfilled_in_place Fixture.loaded
             (mkUpdateArg "9" (mkTaskData "Elsewhere" "")) "9"
             (mkResponse Fixture.task9) _ (or_introl eq_refl)).
    simpl. intuition discriminate.
  - apply (replace_fulfilled_in_place Fixture.loaded
             (mkUpdateArg "2" (mkTaskData "" "")) "2"
             (mkResponse Fixture.task2_done) _ (or_intror eq_refl)).
    simpl. right. left. reflexivity.
Defined.

Example toggle_fixture :
  tasks (tasksReducer Fixture.loaded
           (Thunk.toggleTask "2" (Resolved (mkResponse Fixture.task2_done))))
  = [Fixture.task1; Fixture.task2_done; Fixture.task3].
Proof. reflexivity. Qed.

(** C9. In a list where an identifier occurs twice or more, a fulfilled
    update or toggle for that identifier replaces the first entry that
    carries it and keeps every later entry, the later holders of the
    identifier among them (there is one at least); a fulfilled delete
    for that identifier removes every entry that carries it, so the list
    shrinks by the number of its occurrences, two or more. *)
Theorem duplicates_first_replaced_all_deleted
    (state : TasksState) (payload : Task) (action : Action) :
  action = updateTask_fulfilled payload \/ action = toggleTask_fulfilled payload ->
  (2 <= occurrences (_id payload) (tasks state))%nat ->
  exists before t after,
    tasks state = before ++ t :: after /\
    _id t = _id payload /\
    ~ In (_id payload) (map _id before) /\
    In (_id payload) (map _id after) /\
    tasks (tasksReducer state action) = before ++ payload :: after /\
    tasks (tasksReducer state (deleteTask_fulfilled (_id payload)))
      = before
        ++ Js.filter (fun task => negb (String.eqb (_id task) (_id payload))) after /\
    ~ In (_id payload)
        (map _id (tasks (tasksReducer state (deleteTask_fulfilled (_id payload))))) /\
    (length (tasks (tasksReducer state (deleteTask_fulfilled (_id payload))))
     + occurrences (_id payload) (tasks state)
     = length (tasks state))%nat.
Proof.
  intros Ha Hocc.
  assert (E : tasksReducer state action = Case.replace_fulfilled state payload).
  { destruct Ha as [-> | ->]; reflexivity. }
  assert (Hcount : (length
                      (Js.filter (fun task => negb (String.eqb (_id task) (_id payload)))
                         (tasks state))
                    + occurrences (_id payload) (tasks state)
                    = length (tasks state))%nat).
  { unfold occurrences.
    rewrite Nat.add_comm.
    apply (filter_length_split
             (fun task => String.eqb (_id task) (_id payload)) (tasks state)). }
  assert (HIn : In (_id payload) (map _id (tasks state))).
  { destruct (first_match_split (has_id (_id payload)) (tasks state))
      as [H | (l1 & x & l2 & Ex & _ & Hx)].
    - exfalso. unfold occurrences in Hocc.
      assert (Js.filter (fun task => String.eqb (_id task) (_id payload)) (tasks state)
              = []) as Hnil.
      { clear - H. unfold Js.filter, has_id in *.
        induction H as [|y l Hy _ IH]; simpl; [reflexivity | now rewrite Hy]. }
      rewrite Hnil in Hocc. simpl in Hocc. lia.
    - rewrite Ex, map_app. apply in_or_app. right. left.
      now apply String.eqb_eq in Hx. }
  destruct (split_at_first_id _ _ HIn) as (before & t & after & Et & Ht & Hb).
  exists before, t, after.
  rewrite E, (replace_first state payload t before after Et Ht Hb).
  assert (Hdel : tasks (tasksReducer state (deleteTask_fulfilled (_id payload)))
                 = before
                   ++ Js.filter
                        (fun task => negb (String.eqb (_id task) (_id payload))) after).
  { simpl. rewrite Et. now apply delete_split. }
  repeat split; try assumption.
  - (* a later holder: the first one accounts for one occurrence only *)
    destruct (in_dec string_dec (_id payload) (map _id after)) as [H | H];
      [exact H | exfalso].
    apply no_match_iff in Hb. apply no_match_iff in H.
    unfold occurrences in Hocc. rewrite Et, filter_app in Hocc.
    assert (Hz : forall l, Forall (fun x => has_id (_id payload) x = false) l ->
                           Js.filter (fun task => String.eqb (_id task) (_id payload)) l
                           = []).
    { clear. intros l Hl. unfold Js.filter, has_id in *.
      induction Hl as [|y l Hy _ IH]; simpl; [reflexivity | now rewrite Hy]. }
    rewrite (Hz before Hb) in Hocc. unfold Js.filter at 1 in Hocc.
    simpl in Hocc. rewrite Ht, String.eqb_refl in Hocc.
    fold (Js.filter (fun task => String.eqb (_id task) (_id payload)) after) in Hocc.
    rewrite (Hz after H) in Hocc. simpl in Hocc. lia.
  - simpl tasks at 1. apply filter_drops_id.
Qed.

Lemma duplicates_first_replaced_all_deleted_witness :
  (2 <= occurrences "2" (tasks Fixture.duplicated))%nat /\
  exists before t after,
    tasks Fixture.duplicated = before ++ t :: after /\
    _id t = "2" /\
    ~ In "2" (map _id before) /\
    In "2" (map _id after) /\
    tasks (tasksReducer Fixture.duplicated (toggleTask_fulfilled Fixture.task2_done))
      = before ++ Fixture.task2_done :: after /\
    tasks (tasksReducer Fixture.duplicated (deleteTask_fulfilled "2"))
      = before ++ Js.filter (fun task => negb (String.eqb (_id task) "2")) after /\
    ~ In "2"
        (map _id (tasks (tasksReducer Fixture.duplicated (deleteTask_fulfilled "2")))) /\
    (length (tasks (tasksReducer Fixture.duplicated (deleteTask_fulfilled "2")))
     + occurrences "2" (tasks Fixture.duplicated)
     = length (tasks Fixture.duplicated))%nat.
Proof.
  assert (Hocc : (2 <= occurrences "2" (tasks Fixture.duplicated))%nat).
  { vm_compute. lia. }
  split; [exact Hocc |].
  exact (duplicates_first_replaced_all_deleted Fixture.duplicated
           Fixture.task2_done (toggleTask_fulfilled Fixture.task2_done)
           (or_intror eq_refl) Hocc).
Defined.

Example duplicates_fixture :
  tasks (tasksReducer Fixture.duplicated (updateTask_fulfilled Fixture.task2_done))
  = [Fixture.task1; Fixture.task2_done; Fixture.task3; Fixture.task2] /\
  tasks (tasksReducer Fixture.duplicated (deleteTask_fulfilled "2"))
  = [Fixture.task1; Fixture.task3].
Proof. split; reflexivity. Qed.

(** ** Failures *)

Lemma or_truthy (m d : string) : m <> "" -> Js.or (Some m) d = m.
Proof.
  intros H. unfold Js.or, Js.truthy.
  apply String.eqb_neq in H. now rewrite H.
Qed.

Lemma or_falsy (v : option string) (d : string) :
  v = None \/ v = Some "" -> Js.or v d = d.
Proof. intros [-> | ->]; reflexivity. Qed.

Lemma or_nonempty (v : option string) (d : string) : d <> "" -> Js.or v d <> "".
Proof.
  intros Hd. destruct v as [s |]; simpl; [| exact Hd].
  destruct (String.eqb s "") eqn:E; simpl; [exact Hd |].
  now apply String.eqb_neq.
Qed.

Lemma failing_payload (rq : Request) (e : AxiosError) :
  failing rq e
  = rejected_of (operation_of rq)
      (Some (Js.or (response_message e) (default_message (operation_of rq)))).
Proof. destruct rq; reflexivity. Qed.

(** C4, as the specification words it, fails on a reply whose message
    field is present and empty: the create thunk then rejects with its
    default text, not with the field. *)
Lemma rejected_message_counterexample :
  response_message (Fixture.server_error "") = Some "" /\
  failing (ReqCreate (mkTaskData "Test Task" "")) (Fixture.server_error "")
  = addTask_rejected (Some "Failed to add task") /\
  failing (ReqCreate (mkTaskData "Test Task" "")) (Fixture.server_error "")
  <> addTask_rejected (Some "") /\
  error (tasksReducer initialState
           (failing (ReqCreate (mkTaskData "Test Task" "")) (Fixture.server_error "")))
  = Some "Failed to add task".
Proof. repeat split. discriminate. Qed.

(** C4, amended. The rejected outcome of a failing operation carries the
    message field of the server's reply when that field is present and
    not empty; when there is no reply, no body, no message field, or an
    empty one, it carries the default text of the operation: "Failed to
    fetch tasks", "Failed to add task", "Failed to update task", "Failed
    to toggle task", "Failed to delete task". The rejected reducer stores
    that very string in the error slot. *)
Theorem rejected_payload_policy (rq : Request) (e : AxiosError) (state : TasksState) :
  (forall m : string,
      response_message e = Some m -> m <> "" ->
      failing rq e = rejected_of (operation_of rq) (Some m) /\
      error (tasksReducer state (failing rq e)) = Some m) /\
  (response_message e = None \/ response_message e = Some "" ->
   failing rq e
   = rejected_of (operation_of rq) (Some (default_message (operation_of rq))) /\
   error (tasksReducer state (failing rq e))
   = Some (default_message (operation_of rq))) /\
  map default_message [OpFetch; OpCreate; OpUpdate; OpToggle; OpDelete]
  = ["Failed to fetch tasks"; "Failed to add task"; "Failed to update task";
     "Failed to toggle task"; "Failed to delete task"] /\
  (forall (op : Operation) (payload : option string),
      error (tasksReducer state (rejected_of op payload)) = payload).
Proof.
  rewrite failing_payload, rejected_of_case. simpl error.
  split; [| split; [| split]].
  - intros m -> Hm. now rewrite (or_truthy _ _ Hm).
  - intros H. now rewrite (or_falsy _ _ H).
  - reflexivity.
  - intros op payload. now rewrite rejected_of_case.
Qed.

Lemma rejected_payload_policy_witness :
  error (tasksReducer Fixture.loaded
           (failing (ReqCreate (mkTaskData "Test Task" ""))
              (Fixture.server_error "Validation error")))
  = Some "Validation error" /\
  error (tasksReducer Fixture.loaded
           (failing (ReqCreate (mkTaskData "Test Task" "")) Fixture.network_error))
  = Some "Failed to add task".
Proof.
  split.
  - apply (rejected_payload_policy (ReqCreate (mkTaskData "Test Task" ""))
             (Fixture.server_error "Validation error") Fixture.loaded).
    + reflexivity.
    + discriminate.
  - apply (rejected_payload_policy (ReqCreate (mkTaskData "Test Task" ""))
             Fixture.network_error Fixture.loaded).
    left. reflexivity.
Defined.

(** Along the runs of the application the error slot never holds an
    empty message: it is empty, or holds a non-empty string. *)
Lemma reachable_error (state : TasksState) :
  reachable state -> error state <> Some "".
Proof.
  induction 1 as [| state action _ IH Hd].
  - discriminate.
  - assert (Hrej : forall v d, d <> "" ->
                               @Some string (Js.or v d) <> Some "").
    { intros v d Hd' E. injection E. now apply or_nonempty. }
    destruct Hd as [| op | res | td res | arg res | i res | B i res].
    + discriminate.
    + rewrite pending_of_case. discriminate.
    + destruct res; simpl; [exact IH | now apply Hrej].
    + destruct res; simpl; [exact IH | now apply Hrej].
    + destruct res; simpl.
      * unfold Case.updateTask_fulfilled, Case.replace_fulfilled. cbv zeta.
        destruct (negb _); exact IH.
      * now apply Hrej.
    + destruct res; simpl.
      * unfold Case.toggleTask_fulfilled, Case.replace_fulfilled. cbv zeta.
        destruct (negb _); exact IH.
      * now apply Hrej.
    + destruct res; simpl; [exact IH | now apply Hrej].
Qed.

(** ** The list view *)

Lemma when_nonempty {A : Type} (l : list A) (n : Node) :
  when (0 <? Z.of_nat (length l)) n = match l with [] => [] | _ :: _ => [n] end.
Proof. destruct l; reflexivity. Qed.

Lemma falsy_error (v : option string) :
  v = None \/ v = Some "" -> Js.truthy v = false.
Proof. intros [-> | ->]; reflexivity. Qed.

Lemma truthy_error (m : string) : m <> "" -> Js.truthy (Some m) = true.
Proof. intros H. simpl. now apply negb_true_iff, String.eqb_neq. Qed.

Lemma filter_Forall {A : Type} (f : A -> bool) (l : list A) :
  Forall (fun x => f x = true) (Js.filter f l).
Proof.
  apply List.Forall_forall. intros x Hx.
  unfold Js.filter in Hx. now apply List.filter_In in Hx.
Qed.

(** C7, as the specification words it, fails on a state whose error slot
    holds the empty string: an error is recorded, the list view shows the
    empty-state message (or the groups) all the same. *)
Lemma TaskList_error_counterexample :
  error (mkState [] false (Some "")) <> None /\
  TaskList (mkState [] false (Some ""))
  = Div "task-list"
      [Div "empty-state"
         [Div "empty-icon" []; H3 "No tasks yet";
          P "Add your first task to get started!"]] /\
  TaskList (mkState [] false (Some ""))
  <> Div "task-list" [Div "error" [P "Error: "]] /\
  child_classes (TaskList (mkState Fixture.mockTasks false (Some "")))
  = ["task-section"; "task-section"].
Proof. repeat split; discriminate. Qed.

(** C7, amended. The list view renders one of four outcomes, told apart
    by the class of what it holds, in this order of priority: the spinner
    when loading is true; else the error text when the error slot holds
    a non-empty message; else the empty-state message when the list is
    empty; else the list split by the completion flag, one titled section
    per non-empty group, the pending group first, each title carrying the
    number of tasks of its group and each section one row per task. *)
Theorem TaskList_outcomes (state : TasksState) :
  (loading state = true ->
   TaskList state
   = Div "task-list" [Div "loading" [Div "spinner" []; P "Loading tasks..."]]) /\
  (forall msg : string,
      loading state = false -> error state = Some msg -> msg <> "" ->
      TaskList state
      = Div "task-list" [Div "error" [P ("Error: " ++ msg)%string]]) /\
  (loading state = false -> error state = None \/ error state = Some "" ->
   tasks state = [] ->
   TaskList state
   = Div "task-list"
       [Div "empty-state"
          [Div "empty-icon" []; H3 "No tasks yet";
           P "Add your first task to get started!"]]) /\
  (loading state = false -> error state = None \/ error state = Some "" ->
   tasks state <> [] ->
   exists pendingTasks completedTasks : list Task,
     pendingTasks = Js.filter (fun task => negb (completed task)) (tasks state) /\
     completedTasks = Js.filter (fun task => completed task) (tasks state) /\
     Forall (fun task => completed task = false) pendingTasks /\
     Forall (fun task => completed task = true) completedTasks /\
     (length pendingTasks + length completedTasks = length (tasks state))%nat /\
     (pendingTasks <> [] \/ completedTasks <> []) /\
     TaskList state
     = Div "task-list"
         (match pendingTasks with
          | [] => []
          | _ :: _ =>
              [Div "task-section"
                 (H2 "section-title"
                    ("Pending Tasks ("
                     ++ Js.number_text (length pendingTasks) ++ ")")%string
                  :: map TaskItem pendingTasks)]
          end
          ++
          match completedTasks with
          | [] => []
          | _ :: _ =>
              [Div "task-section"
                 (H2 "section-title"
                    ("Completed Tasks ("
                     ++ Js.number_text (length completedTasks) ++ ")")%string
                  :: map TaskItem completedTasks)]
          end)) /\
  (child_classes (TaskList state) = ["loading"] \/
   child_classes (TaskList state) = ["error"] \/
   child_classes (TaskList state) = ["empty-state"] \/
   child_classes (TaskList state) = ["task-section"] \/
   child_classes (TaskList state) = ["task-section"; "task-section"]).
Proof.
  split; [| split; [| split; [| split]]].
  - intros Hl. unfold TaskList. now rewrite Hl.
  - intros msg Hl He Hm. unfold TaskList.
    now rewrite Hl, He, (truthy_error msg Hm).
  - intros Hl He Ht. unfold TaskList.
    now rewrite Hl, (falsy_error _ He), Ht.
  - intros Hl He Ht.
    exists (Js.filter (fun task => negb (completed task)) (tasks state)),
           (Js.filter (fun task => completed task) (tasks state)).
    assert (Hlen : (length (Js.filter (fun task => negb (completed task)) (tasks state))
                    + length (Js.filter (fun task => completed task) (tasks state))
                    = length (tasks state))%nat).
    { rewrite Nat.add_comm. apply (filter_length_split completed). }
    split; [reflexivity | split; [reflexivity |]].
    split; [| split; [| split; [exact Hlen | split]]].
    + eapply Forall_impl; [apply filter_Forall |].
      intros t H. simpl in H. now apply negb_true_iff.
    + apply filter_Forall.
    + destruct (tasks state) as [|t l] eqn:E; [congruence |].
      destruct (Js.filter (fun task => negb (completed task)) (t :: l));
        [right | left; discriminate].
      destruct (Js.filter (fun task => completed task) (t :: l));
        [simpl in Hlen; discriminate | discriminate].
    + unfold TaskList. rewrite Hl, (falsy_error _ He).
      destruct (tasks state) as [|t l] eqn:E; [congruence |].
      replace (Z.of_nat (length (t :: l)) =? 0) with false
        by (symmetry; apply Z.eqb_neq; simpl length; lia).
      cbv zeta. rewrite !when_nonempty. unfold task_section.
      reflexivity.
  - unfold TaskList.
    destruct (loading state); [now left |].
    destruct (Js.truthy (error state)); [right; now left |].
    destruct (tasks state) as [|t l] eqn:E; [right; right; now left |].
    replace (Z.of_nat (length (t :: l)) =? 0) with false
      by (symmetry; apply Z.eqb_neq; simpl length; lia).
    cbv zeta. rewrite !when_nonempty.
    pose proof (filter_length_split completed (t :: l)) as Hlen.
    destruct (Js.filter (fun task => negb (completed task)) (t :: l));
      destruct (Js.filter (fun task => completed task) (t :: l));
      simpl; auto.
    simpl in Hlen. discriminate.
Qed.

Lemma TaskList_outcomes_witness :
  TaskList Fixture.loaded
  = Div "task-list"
      [Div "task-section"
         [H2 "section-title" "Pending Tasks (2)";
          TaskItem Fixture.task1; TaskItem Fixture.task2];
       Div "task-section"
         [H2 "section-title" "Completed Tasks (1)"; TaskItem Fixture.task3]] /\
  TaskList (mkState Fixture.mockTasks true (Some "Failed to fetch tasks"))
  = Div "task-list" [Div "loading" [Div "spinner" []; P "Loading tasks..."]] /\
  TaskList (mkState Fixture.mockTasks false (Some "Failed to fetch tasks"))
  = Div "task-list" [Div "error" [P "Error: Failed to fetch tasks"]] /\
  TaskList initialState
  = Div "task-list"
      [Div "empty-state"
         [Div "empty-icon" []; H3 "No tasks yet";
          P "Add your first task to get started!"]].
Proof.
  split; [| split; [| split]].
  - destruct (TaskList_outcomes Fixture.loaded) as (_ & _ & _ & H & _).
    destruct (H eq_refl (or_introl eq_refl) ltac:(discriminate))
      as (p & c & -> & -> & _ & _ & _ & _ & E).
    exact E.
  - destruct (TaskList_outcomes
                (mkState Fixture.mockTasks true (Some "Failed to fetch tasks")))
      as (H & _).
    exact (H eq_refl).
  - destruct (TaskList_outcomes
                (mkState Fixture.mockTasks false (Some "Failed to fetch tasks")))
      as (_ & H & _).
    apply (H "Failed to fetch tasks"); [reflexivity | reflexivity | discriminate].
  - destruct (TaskList_outcomes initialState) as (_ & _ & H & _).
    exact (H eq_refl (or_introl eq_refl) eq_refl).
Defined.

(** ** Further properties of the slice *)

Lemma replace_fulfilled_error (state : TasksState) (payload : Task) :
  error (Case.replace_fulfilled state payload) = error state.
Proof.
  unfold Case.replace_fulfilled. cbv zeta.
  destruct (negb _); reflexivity.
Qed.

Lemma replace_fulfilled_cases (state : TasksState) (payload : Task) :
  (~ In (_id payload) (map _id (tasks state)) /\
   tasks (Case.replace_fulfilled state payload) = tasks state) \/
  (exists before t after,
      tasks state = before ++ t :: after /\ _id t = _id payload /\
      ~ In (_id payload) (map _id before) /\
      tasks (Case.replace_fulfilled state payload) = before ++ payload :: after).
Proof.
  destruct (in_dec string_dec (_id payload) (map _id (tasks state))) as [H | H].
  - right. destruct (split_at_first_id _ _ H) as (before & t & after & E & Ht & Hb).
    exists before, t, after. repeat split; try assumption.
    now apply (replace_first state payload t before after).
  - left. split; [exact H | now apply replace_absent].
Qed.

Lemma state_eq (s1 s2 : TasksState) :
  tasks s1 = tasks s2 -> loading s1 = loading s2 -> error s1 = error s2 -> s1 = s2.
Proof. destruct s1, s2; simpl; congruence. Qed.

(** A fulfilled update or toggle keeps the sequence of identifiers. *)
Lemma replace_fulfilled_ids (state : TasksState) (payload : Task) :
  map _id (tasks (Case.replace_fulfilled state payload)) = map _id (tasks state).
Proof.
  destruct (replace_fulfilled_cases state payload)
    as [[_ E] | (before & t & after & Et & Ht & _ & E)]; rewrite E.
  - reflexivity.
  - rewrite Et, !map_app. simpl. now rewrite Ht.
Qed.

Lemma NoDup_map_filter {A B : Type} (f : A -> B) (g : A -> bool) (l : list A) :
  List.NoDup (map f l) -> List.NoDup (map f (Js.filter g l)).
Proof.
  unfold Js.filter. induction l as [|x l IH]; simpl; intros H.
  - constructor.
  - apply List.NoDup_cons_iff in H. destruct H as [Hx Hl].
    destruct (g x); simpl; [| now apply IH].
    constructor; [| now apply IH].
    intros HIn. apply Hx. apply in_map_iff in HIn.
    destruct HIn as (y & Ey & Hy). apply List.filter_In in Hy.
    apply in_map_iff. exists y. tauto.
Qed.

(** X1. Mounting the root view fetches the list: when the request
    succeeds the store holds the server's array in the server's order,
    loading down and error empty, whatever it held before; of two loads
    in a row the second reply is the one that stays. *)
Theorem mount_loads_server_list
    (state : TasksState) (r r' : Response (list Task)) :
  store_after state (App.mount (Resolved r)) = mkState (data r) false None /\
  requests (App.mount (Resolved r)) = [ReqFetch] /\
  store_after state (App.mount (Resolved r) ++ App.mount (Resolved r'))
  = mkState (data r') false None.
Proof. repeat split. Qed.

(** X2. A fulfilled transition never touches the error slot: an error
    recorded before a request completes with success is still there
    afterwards. *)
Theorem fulfilled_keeps_error (state : TasksState) (action : Action) :
  is_fulfilled action ->
  error (tasksReducer state action) = error state.
Proof.
  intros H. destruct H; simpl; try reflexivity; apply replace_fulfilled_error.
Qed.

Lemma fulfilled_keeps_error_witness :
  is_fulfilled (toggleTask_fulfilled Fixture.task2_done) /\
  error (tasksReducer (mkState Fixture.mockTasks true (Some "Failed to add task"))
           (toggleTask_fulfilled Fixture.task2_done))
  = Some "Failed to add task".
Proof.
  split; [constructor |].
  apply (fulfilled_keeps_error
           (mkState Fixture.mockTasks true (Some "Failed to add task"))
           (toggleTask_fulfilled Fixture.task2_done)).
  constructor.
Defined.

(** X3. A fulfilled delete for an identifier the list does not hold
    leaves the list as it was. *)
Theorem delete_absent_unchanged (state : TasksState) (ident : string) :
  ~ In ident (map _id (tasks state)) ->
  tasks (tasksReducer state (deleteTask_fulfilled ident)) = tasks state.
Proof. intros H. simpl. now apply filter_other_ids. Qed.

Lemma delete_absent_unchanged_witness :
  ~ In "9" (map _id (tasks Fixture.loaded)) /\
  tasks (tasksReducer Fixture.loaded (deleteTask_fulfilled "9"))
  = tasks Fixture.loaded.
Proof.
  assert (H : ~ In "9" (map _id (tasks Fixture.loaded))).
  { simpl. intuition discriminate. }
  split; [exact H |].
  exact (delete_absent_unchanged Fixture.loaded "9" H).
Defined.

(** X4. Delete is idempotent on the store: a second fulfilled delete for
    the same identifier changes nothing, and after a delete the list
    holds no entry with that identifier, unique or not. *)
Theorem delete_fulfilled_idempotent (state : TasksState) (ident : string) :
  tasksReducer (tasksReducer state (deleteTask_fulfilled ident))
    (deleteTask_fulfilled ident)
  = tasksReducer state (deleteTask_fulfilled ident) /\
  ~ In ident (map _id (tasks (tasksReducer state (deleteTask_fulfilled ident)))).
Proof.
  assert (H : ~ In ident
                (map _id (tasks (tasksReducer state (deleteTask_fulfilled ident))))).
  { simpl. apply filter_drops_id. }
  split; [| exact H].
  apply state_eq; try reflexivity.
  change (tasks (tasksReducer (tasksReducer state (deleteTask_fulfilled ident))
                   (deleteTask_fulfilled ident)))
    with (Js.filter (fun task => negb (String.eqb (_id task) ident))
            (tasks (tasksReducer state (deleteTask_fulfilled ident)))).
  now apply filter_other_ids.
Qed.

(** X5. Creating a task whose identifier is new to the list and then
    deleting that identifier gives back the list as it was before the
    create. *)
Theorem create_then_delete_restores (state : TasksState) (created : Task) :
  ~ In (_id created) (map _id (tasks state)) ->
  tasks (tasksReducer (tasksReducer state (addTask_fulfilled created))
           (deleteTask_fulfilled (_id created)))
  = tasks state.
Proof.
  intros H. simpl. unfold Js.unshift, Js.filter at 1. simpl.
  rewrite String.eqb_refl. simpl.
  now apply filter_other_ids.
Qed.

Lemma create_then_delete_restores_witness :
  ~ In (_id Fixture.task9) (map _id (tasks Fixture.loaded)) /\
  tasks (tasksReducer (tasksReducer Fixture.loaded (addTask_fulfilled Fixture.task9))
           (deleteTask_fulfilled (_id Fixture.task9)))
  = tasks Fixture.loaded.
Proof.
  assert (H : ~ In (_id Fixture.task9) (map _id (tasks Fixture.loaded))).
  { simpl. intuition discriminate. }
  split; [exact H |].
  exact (create_then_delete_restores Fixture.loaded Fixture.task9 H).
Defined.

(** X6. Uniqueness of identifiers is kept by the reducer: if no two
    entries share an identifier, none do after any action, provided a
    fetched array has no repeated identifier itself and a created record
    brings an identifier the list does not hold. Update, toggle, delete,
    the pending and rejected transitions and [clearError] need no
    proviso. *)
Theorem reducer_keeps_ids_unique (state : TasksState) (action : Action) :
  List.NoDup (map _id (tasks state)) ->
  match action with
  | fetchTasks_fulfilled payload => List.NoDup (map _id payload)
  | addTask_fulfilled payload => ~ In (_id payload) (map _id (tasks state))
  | _ => True
  end ->
  List.NoDup (map _id (tasks (tasksReducer state action))).
Proof.
  intros Hnd Hact.
  destruct action; simpl; try exact Hnd.
  - exact Hact.
  - constructor; assumption.
  - unfold Case.updateTask_fulfilled. now rewrite replace_fulfilled_ids.
  - unfold Case.toggleTask_fulfilled. now rewrite replace_fulfilled_ids.
  - now apply NoDup_map_filter.
Qed.

Lemma reducer_keeps_ids_unique_witness :
  List.NoDup (map _id (tasks Fixture.loaded)) /\
  List.NoDup
    (map _id (tasks (tasksReducer Fixture.loaded
                       (updateTask_fulfilled Fixture.task2_done)))) /\
  List.NoDup
    (map _id (tasks (tasksReducer Fixture.loaded
                       (addTask_fulfilled Fixture.task9)))).
Proof.
  assert (H : List.NoDup (map _id (tasks Fixture.loaded))).
  { simpl. repeat constructor; simpl; intuition discriminate. }
  split; [exact H | split].
  - exact (reducer_keeps_ids_unique Fixture.loaded
             (updateTask_fulfilled Fixture.task2_done) H I).
  - apply (reducer_keeps_ids_unique Fixture.loaded
             (addTask_fulfilled Fixture.task9) H).
    simpl. intuition discriminate.
Defined.

(** X7. A fulfilled update or toggle keeps the sequence of identifiers
    of the list, hence its length, whether or not the identifier is
    held; and it is idempotent: the same reply applied a second time
    changes nothing. *)
Theorem replace_fulfilled_idempotent (state : TasksState) (payload : Task) :
  map _id (tasks (tasksReducer state (updateTask_fulfilled payload)))
  = map _id (tasks state) /\
  map _id (tasks (tasksReducer state (toggleTask_fulfilled payload)))
  = map _id (tasks state) /\
  length (tasks (tasksReducer state (updateTask_fulfilled payload)))
  = length (tasks state) /\
  tasksReducer (tasksReducer state (updateTask_fulfilled payload))
    (updateTask_fulfilled payload)
  = tasksReducer state (updateTask_fulfilled payload) /\
  tasksReducer (tasksReducer state (toggleTask_fulfilled payload))
    (toggleTask_fulfilled payload)
  = tasksReducer state (toggleTask_fulfilled payload).
Proof.
  assert (Hidem : Case.replace_fulfilled (Case.replace_fulfilled state payload) payload
                  = Case.replace_fulfilled state payload).
  { apply state_eq.
    - destruct (replace_fulfilled_cases state payload)
        as [[Habs E] | (before & t & after & Et & Ht & Hb & E)].
      + apply replace_absent. now rewrite E.
      + rewrite E. now apply (replace_first _ payload payload before after).
    - now rewrite !replace_fulfilled_loading.
    - now rewrite !replace_fulfilled_error. }
  simpl. unfold Case.updateTask_fulfilled, Case.toggleTask_fulfilled.
  repeat split; try apply replace_fulfilled_ids; try exact Hidem.
  rewrite <- (length_map _id), replace_fulfilled_ids. apply length_map.
Qed.

(** ** Failures, from the request to the screen *)

Lemma default_message_nonempty (op : Operation) : default_message op <> "".
Proof. destruct op; discriminate. Qed.

(** X8. A request that fails, whatever the operation and whatever the
    failure, leaves the task list as it was before the request began and
    the loading flag down, and records a message that is not empty; so
    the root view renders its banner with that message and the list view
    its error text. *)
Theorem failed_request_is_shown (state : TasksState) (rq : Request) (e : AxiosError) :
  exists msg : string,
    msg <> "" /\
    store_after state (dispatchThunk rq (failing rq e))
    = mkState (tasks state) false (Some msg) /\
    App.banner (store_after state (dispatchThunk rq (failing rq e))) = Some msg /\
    TaskList (store_after state (dispatchThunk rq (failing rq e)))
    = Div "task-list" [Div "error" [P ("Error: " ++ msg)%string]].
Proof.
  exists (Js.or (response_message e) (default_message (operation_of rq))).
  assert (Hne : Js.or (response_message e) (default_message (operation_of rq)) <> "").
  { apply or_nonempty, default_message_nonempty. }
  assert (Hs : store_after state (dispatchThunk rq (failing rq e))
               = mkState (tasks state) false
                   (Some (Js.or (response_message e)
                            (default_message (operation_of rq))))).
  { unfold dispatchThunk. simpl store_after.
    rewrite failing_payload, rejected_of_case, pending_of_case. reflexivity. }
  rewrite Hs. split; [exact Hne | split; [reflexivity | split]].
  - unfold App.banner. simpl error. now rewrite (truthy_error _ Hne).
  - unfold TaskList. simpl loading. simpl error. now rewrite (truthy_error _ Hne).
Qed.

(** X9. Along the runs of the application (the actions being
    [clearError] and what the five thunks dispatch, in any order) the
    error slot is empty or holds a non-empty message; so in every state
    the application reaches, the banner shows exactly what the slot
    holds, and the list view, once loading is down, shows the error text
    whenever the slot is not empty. *)
Theorem reachable_error_is_shown (state : TasksState) :
  reachable state ->
  error state <> Some "" /\
  App.banner state = error state /\
  (loading state = false -> error state <> None ->
   child_classes (TaskList state) = ["error"]).
Proof.
  intros Hr. pose proof (reachable_error state Hr) as Hne.
  split; [exact Hne |].
  unfold App.banner, TaskList.
  destruct (error state) as [m |] eqn:E.
  - assert (Hm : m <> "") by (intros ->; now apply Hne).
    rewrite (truthy_error m Hm). split; [reflexivity |].
    intros -> _. reflexivity.
  - simpl. split; [reflexivity |]. intros _ H. now contradiction H.
Qed.

Lemma reachable_error_is_shown_witness :
  reachable (tasksReducer initialState
               (Thunk.addTask (mkTaskData "Test Task" "")
                  (Thrown Fixture.network_error))) /\
  App.banner (tasksReducer initialState
                (Thunk.addTask (mkTaskData "Test Task" "")
                   (Thrown Fixture.network_error)))
  = Some "Failed to add task".
Proof.
  assert (H : reachable (tasksReducer initialState
                           (Thunk.addTask (mkTaskData "Test Task" "")
                              (Thrown Fixture.network_error)))).
  { apply reach_step; [apply reach_init | apply disp_add]. }
  split; [exact H |].
  destruct (reachable_error_is_shown _ H) as (_ & E & _).
  exact E.
Defined.

(** ** The rows of the list view and the header of the root view *)

Lemma rows_Div (c : string) (children : list Node) :
  rows (Div c children) = List.flat_map rows children.
Proof. reflexivity. Qed.

Lemma headings_Div (c : string) (children : list Node) :
  headings (Div c children) = List.flat_map headings children.
Proof. reflexivity. Qed.

Lemma rows_section (heading : string) (group : list Task) :
  rows (task_section heading group) = group.
Proof.
  unfold task_section. simpl.
  induction group as [|t l IH]; simpl; [reflexivity | now rewrite IH].
Qed.

Lemma headings_section (heading : string) (group : list Task) :
  headings (task_section heading group)
  = [(heading ++ " (" ++ Js.number_text (length group) ++ ")")%string].
Proof.
  unfold task_section. simpl. f_equal.
  induction group as [|t l IH]; simpl; [reflexivity | exact IH].
Qed.

Lemma partition_Permutation {A : Type} (f : A -> bool) (l : list A) :
  Permutation (Js.filter (fun x => negb (f x)) l ++ Js.filter f l) l.
Proof.
  unfold Js.filter. induction l as [|x l IH]; simpl.
  - constructor.
  - destruct (f x); simpl.
    + symmetry. apply Permutation_cons_app. now symmetry.
    + now constructor.
Qed.

Lemma TaskList_groups (state : TasksState) :
  loading state = false -> Js.truthy (error state) = false ->
  TaskList state
  = Div "task-list"
      (match Js.filter (fun task => negb (completed task)) (tasks state) with
       | [] => []
       | _ :: _ =>
           [task_section "Pending Tasks"
              (Js.filter (fun task => negb (completed task)) (tasks state))]
       end
       ++
       match Js.filter (fun task => completed task) (tasks state) with
       | [] => []
       | _ :: _ =>
           [task_section "Completed Tasks"
              (Js.filter (fun task => completed task) (tasks state))]
       end)
  \/ tasks state = [].
Proof.
  intros Hl He. unfold TaskList. rewrite Hl, He.
  destruct (tasks state) as [|t l] eqn:E; [now right | left].
  replace (Z.of_nat (length (t :: l)) =? 0) with false
    by (symmetry; apply Z.eqb_neq; simpl length; lia).
  cbv zeta. now rewrite !when_nonempty.
Qed.

(** X10. The list view shows no task at all while loading is true or
    while the error slot holds a non-empty message, even if the list is
    not empty. Otherwise it shows every task of the list once: the
    pending ones first, then the completed ones, each group in the order
    of the list. *)
Theorem TaskList_rows (state : TasksState) :
  (loading state = true -> rows (TaskList state) = []) /\
  (forall msg : string,
      error state = Some msg -> msg <> "" -> rows (TaskList state) = []) /\
  (loading state = false -> error state = None \/ error state = Some "" ->
   rows (TaskList state)
   = Js.filter (fun task => negb (completed task)) (tasks state)
     ++ Js.filter (fun task => completed task) (tasks state) /\
   Permutation (rows (TaskList state)) (tasks state)).
Proof.
  split; [| split].
  - intros Hl. unfold TaskList. now rewrite Hl.
  - intros msg He Hm. unfold TaskList.
    rewrite He, (truthy_error msg Hm). now destruct (loading state).
  - intros Hl He.
    assert (Hrows : rows (TaskList state)
                    = Js.filter (fun task => negb (completed task)) (tasks state)
                      ++ Js.filter (fun task => completed task) (tasks state)).
    { destruct (TaskList_groups state Hl (falsy_error _ He)) as [E | E].
      - rewrite E, rows_Div, List.flat_map_app.
        destruct (Js.filter (fun task => negb (completed task)) (tasks state)) eqn:Ep;
          destruct (Js.filter (fun task => completed task) (tasks state)) eqn:Ec;
          cbn [List.flat_map app]; rewrite ?rows_section, ?app_nil_r; reflexivity.
      - unfold TaskList. rewrite Hl, (falsy_error _ He), E. reflexivity. }
    split; [exact Hrows |].
    rewrite Hrows. apply (partition_Permutation completed).
Qed.

Lemma TaskList_rows_witness :
  rows (TaskList (mkState Fixture.mockTasks true None)) = [] /\
  rows (TaskList (mkState Fixture.mockTasks false (Some "Failed to fetch tasks"))) = [] /\
  rows (TaskList (mkState [Fixture.task3; Fixture.task1; Fixture.task2] false None))
  = [Fixture.task1; Fixture.task2; Fixture.task3].
Proof.
  split; [| split].
  - destruct (TaskList_rows (mkState Fixture.mockTasks true None)) as (H & _).
    exact (H eq_refl).
  - destruct (TaskList_rows
                (mkState Fixture.mockTasks false (Some "Failed to fetch tasks")))
      as (_ & H & _).
    apply (H "Failed to fetch tasks"); [reflexivity | discriminate].
  - destruct (TaskList_rows
                (mkState [Fixture.task3; Fixture.task1; Fixture.task2] false None))
      as (_ & _ & H).
    destruct (H eq_refl (or_introl eq_refl)) as [E _]. exact E.
Defined.

(** X11. The three numbers of the header always add up: pending plus
    completed is the total. They are computed from the list alone, so
    they are shown unchanged while loading or in error; and when the
    list view shows the groups, its section titles carry the same two
    numbers, a group of size zero having no title. *)
Theorem header_counts (state : TasksState) :
  let '(pending, finished, total) := App.stats state in
  (pending + finished = total)%nat /\
  (forall (l : bool) (e : option string),
      App.stats (mkState (tasks state) l e) = (pending, finished, total)) /\
  (loading state = false -> error state = None \/ error state = Some "" ->
   headings (TaskList state)
   = (if (pending =? 0)%nat then []
      else [("Pending Tasks (" ++ Js.number_text pending ++ ")")%string])
     ++
     (if (finished =? 0)%nat then []
      else [("Completed Tasks (" ++ Js.number_text finished ++ ")")%string])).
Proof.
  unfold App.stats. cbv zeta.
  split; [| split].
  - rewrite Nat.add_comm. apply (filter_length_split completed).
  - reflexivity.
  - intros Hl He.
    destruct (TaskList_groups state Hl (falsy_error _ He)) as [E | E].
    + rewrite E, headings_Div, List.flat_map_app.
      destruct (Js.filter (fun task => negb (completed task)) (tasks state)) eqn:Ep;
        destruct (Js.filter (fun task => completed task) (tasks state)) eqn:Ec;
        cbn [List.flat_map app]; rewrite ?headings_section; reflexivity.
    + unfold TaskList. rewrite Hl, (falsy_error _ He), E. reflexivity.
Qed.

Lemma header_counts_witness :
  App.stats Fixture.loaded = (2, 1, 3)%nat /\
  headings (TaskList Fixture.loaded) = ["Pending Tasks (2)"; "Completed Tasks (1)"].
Proof.
  split; [reflexivity |].
  pose proof (header_counts Fixture.loaded) as H.
  simpl in H. destruct H as (_ & _ & H).
  exact (H eq_refl (or_introl eq_refl)).
Defined.

(** ** Effects *)

Lemma requests_app (e1 e2 : list Effect) :
  requests (e1 ++ e2) = requests e1 ++ requests e2.
Proof.
  induction e1 as [|x e1 IH]; simpl; [reflexivity |].
  destruct x; simpl; now rewrite ?IH.
Qed.

Lemma store_after_app (state : TasksState) (e1 e2 : list Effect) :
  store_after state (e1 ++ e2) = store_after (store_after state e1) e2.
Proof.
  revert state. induction e1 as [|x e1 IH]; intros state; simpl; [reflexivity |].
  destruct x; apply IH.
Qed.

Lemma App_after_app (st : App.State) (e1 e2 : list Effect) :
  App.after st (e1 ++ e2) = App.after (App.after st e1) e2.
Proof.
  revert st. induction e1 as [|x e1 IH]; intros st; simpl; [reflexivity |].
  destruct x; apply IH.
Qed.

(** ** Trimming *)

Lemma strip_prefix_length (p s r : list ascii) :
  JsString.strip_prefix p s = Some r -> length s = (length p + length r)%nat.
Proof.
  revert s. induction p as [|a p IH]; intros s H; simpl in H.
  - now inversion H.
  - destruct s as [|b s]; [discriminate |].
    destruct (Ascii.eqb a b); [| discriminate].
    simpl. now rewrite (IH s H).
Qed.

Lemma strip_first_length (qs : list (list ascii)) (s r : list ascii) :
  Forall (fun p => p <> []) qs ->
  JsString.strip_first qs s = Some r -> (length r < length s)%nat.
Proof.
  induction 1 as [|p l Hp _ IH]; simpl; [discriminate |].
  destruct (JsString.strip_prefix p s) as [r' |] eqn:E.
  - intros H. inversion H; subst r'.
    apply strip_prefix_length in E. destruct p; [congruence | simpl in E; lia].
  - exact IH.
Qed.

Section Stripping.

Variable ps : list (list ascii).
Hypothesis ps_nonempty : Forall (fun p => p <> []) ps.
Hypothesis ps_strip :
  forall t s, In t ps -> JsString.strip_first ps (t ++ s) = Some s.

Lemma strip_first_shorter (s r : list ascii) :
  JsString.strip_first ps s = Some r -> (length r < length s)%nat.
Proof. now apply strip_first_length. Qed.

(** Fuel beyond the length of the text changes nothing. *)
Lemma strip_leading_fuel (n m : nat) :
  forall s : list ascii,
    (length s <= n)%nat -> (length s <= m)%nat ->
    JsString.strip_leading ps n s = JsString.strip_leading ps m s.
Proof.
  revert m. induction n as [|n IH]; intros m s Hn Hm.
  - destruct s; [| simpl in Hn; lia].
    destruct m; simpl; [reflexivity |].
    destruct (JsString.strip_first ps []) as [r |] eqn:E; [| reflexivity].
    apply strip_first_shorter in E. simpl in E. lia.
  - destruct m as [|m].
    + destruct s; [| simpl in Hm; lia]. simpl.
      destruct (JsString.strip_first ps []) as [r |] eqn:E; [| reflexivity].
      apply strip_first_shorter in E. simpl in E. lia.
    + simpl. destruct (JsString.strip_first ps s) as [r |] eqn:E; [| reflexivity].
      apply strip_first_shorter in E. apply IH; lia.
Qed.

Lemma strip_leading_blank (w s : list ascii) :
  JsString.blank_of ps w ->
  JsString.strip_leading ps (length (w ++ s)) (w ++ s)
  = JsString.strip_leading ps (length s) s.
Proof.
  induction 1 as [|t w Ht Hw IH].
  - reflexivity.
  - rewrite <- app_assoc.
    assert (Hlen : exists k, length (t ++ w ++ s) = S k /\ (length (w ++ s) <= k)%nat).
    { rewrite Forall_forall in ps_nonempty. specialize (ps_nonempty t).
      rewrite list_elem_of_In in ps_nonempty. specialize (ps_nonempty Ht).
      destruct t as [|a t]; [congruence |].
      exists (length (t ++ w ++ s)). simpl. rewrite !length_app. split; lia. }
    destruct Hlen as (k & -> & Hk). simpl.
    rewrite (ps_strip t (w ++ s) Ht), <- IH.
    now apply strip_leading_fuel.
Qed.

Lemma strip_leading_stop (n : nat) (s : list ascii) :
  JsString.strip_first ps s = None -> JsString.strip_leading ps n s = s.
Proof. intros H. destruct n; simpl; [reflexivity | now rewrite H]. Qed.

Lemma blank_of_app (w1 w2 : list ascii) :
  JsString.blank_of ps w1 -> JsString.blank_of ps w2 ->
  JsString.blank_of ps (w1 ++ w2).
Proof.
  induction 1 as [|t w Ht Hw IH]; intros H2; [exact H2 |].
  rewrite <- app_assoc. constructor; [exact Ht | now apply IH].
Qed.

End Stripping.

Lemma blank_of_rev (ps : list (list ascii)) (w : list ascii) :
  JsString.blank_of ps w -> JsString.blank_of (map (@rev ascii) ps) (rev w).
Proof.
  induction 1 as [|t w Ht Hw IH]; [constructor |].
  rewrite rev_app_distr. apply blank_of_app; [exact IH |].
  rewrite <- (app_nil_r (rev t)). constructor; [| constructor].
  apply in_map_iff. now exists t.
Qed.

Lemma white_space_nonempty : Forall (fun p => p <> []) JsString.white_space.
Proof. unfold JsString.white_space. simpl. repeat constructor; discriminate. Qed.

Lemma white_space_rev_nonempty :
  Forall (fun p => p <> []) (map (@rev ascii) JsString.white_space).
Proof. unfold JsString.white_space. simpl. repeat constructor; discriminate. Qed.

(** No white space encoding is the start of another one: the pattern that
    is stripped is the one that is there. *)
Lemma white_space_strip (t s : list ascii) :
  In t JsString.white_space ->
  JsString.strip_first JsString.white_space (t ++ s) = Some s.
Proof.
  unfold JsString.white_space. simpl.
  intros H. repeat (destruct H as [<- | H]; [reflexivity |]). destruct H.
Qed.

Lemma white_space_rev_strip (t s : list ascii) :
  In t (map (@rev ascii) JsString.white_space) ->
  JsString.strip_first (map (@rev ascii) JsString.white_space) (t ++ s) = Some s.
Proof.
  unfold JsString.white_space. simpl.
  intros H. repeat (destruct H as [<- | H]; [reflexivity |]). destruct H.
Qed.

(** A visible character starts no white space encoding and ends none. *)
Lemma visible_not_stripped (a : ascii) (s : list ascii) :
  JsString.visible a = true ->
  JsString.strip_first JsString.white_space (a :: s) = None /\
  JsString.strip_first (map (@rev ascii) JsString.white_space) (a :: s) = None.
Proof.
  destruct a as [[] [] [] [] [] [] [] []]; intros H;
    first [discriminate H | split; reflexivity].
Qed.

Lemma trimStart_blank (w s : list ascii) :
  JsString.blank_of JsString.white_space w ->
  JsString.trimStart_bytes (w ++ s) = JsString.trimStart_bytes s.
Proof.
  apply (strip_leading_blank _ white_space_nonempty white_space_strip).
Qed.

Lemma trimEnd_blank (s w : list ascii) :
  JsString.blank_of JsString.white_space w ->
  JsString.trimEnd_bytes (s ++ w) = JsString.trimEnd_bytes s.
Proof.
  intros Hw. unfold JsString.trimEnd_bytes. f_equal.
  rewrite rev_app_distr, <- (length_rev (s ++ w)), <- (length_rev s), rev_app_distr.
  apply (strip_leading_blank _ white_space_rev_nonempty white_space_rev_strip).
  now apply blank_of_rev.
Qed.

(** Text made of white space only trims to nothing. *)
Lemma trim_blank (s : string) : JsString.blank s -> JsString.trim s = "".
Proof.
  unfold JsString.blank, JsString.trim. intros H.
  rewrite <- (app_nil_r (list_ascii_of_string s)).
  rewrite (trimStart_blank _ [] H). reflexivity.
Qed.

(** Text that starts and ends with a visible character, in white space
    on both sides, trims to that text. *)
Lemma trim_padded (s : string) (w1 w2 core : list ascii) (a z : ascii) :
  list_ascii_of_string s = w1 ++ core ++ w2 ->
  JsString.blank_of JsString.white_space w1 ->
  JsString.blank_of JsString.white_space w2 ->
  head core = Some a -> head (rev core) = Some z ->
  JsString.visible a = true -> JsString.visible z = true ->
  JsString.trim s = string_of_list_ascii core.
Proof.
  intros E H1 H2 Ha Hz Va Vz. unfold JsString.trim. f_equal.
  rewrite E, (trimStart_blank w1 _ H1).
  destruct core as [|a' core']; [discriminate |].
  simpl in Ha. inversion Ha; subst a'.
  unfold JsString.trimStart_bytes.
  rewrite strip_leading_stop
    by (simpl; apply (visible_not_stripped a (core' ++ w2) Va)).
  rewrite (trimEnd_blank (a :: core') w2 H2).
  unfold JsString.trimEnd_bytes.
  destruct (rev (a :: core')) as [|z' r] eqn:Er; [discriminate |].
  simpl in Hz. inversion Hz; subst z'.
  rewrite strip_leading_stop by apply (visible_not_stripped z r Vz).
  now rewrite <- Er, rev_involutive.
Qed.

(** ** The form *)

(** X12. Submitting the form while the title holds white space only
    (spaces, tabs, line breaks, or any other white space of the
    language; the empty title too) raises the alert and does nothing
    else: no request goes out, no action reaches the store, the two
    fields keep their text, and the form is not dismissed. *)
Theorem submit_blank_title_alerts
    (task : option Task) (onCancel : bool) (st : Form.State) (res : Settled Task)
    (store : TasksState) (app : App.State) :
  JsString.blank (Form.title_ st) ->
  Form.handleSubmit task onCancel st res
  = ([PreventDefault; Alert "Please enter a task title"], st) /\
  requests (fst (Form.handleSubmit task onCancel st res)) = [] /\
  store_after store (fst (Form.handleSubmit task onCancel st res)) = store /\
  App.after app (fst (Form.handleSubmit task onCancel st res)) = app.
Proof.
  intros Hb.
  assert (E : Form.handleSubmit task onCancel st res
              = ([PreventDefault; Alert "Please enter a task title"], st)).
  { unfold Form.handleSubmit. now rewrite (trim_blank _ Hb). }
  rewrite E. repeat split.
Qed.

Lemma submit_blank_title_alerts_witness :
  JsString.blank "  " /\
  Form.handleSubmit None true (Form.mkForm "  " "notes") (Resolved (mkResponse Fixture.task9))
  = ([PreventDefault; Alert "Please enter a task title"], Form.mkForm "  " "notes").
Proof.
  assert (H : JsString.blank "  ").
  { unfold JsString.blank. simpl.
    apply (JsString.blank_cons _ [" "%char] [" "%char]).
    - unfold JsString.white_space. simpl. tauto.
    - apply (JsString.blank_cons _ [" "%char] []).
      + unfold JsString.white_space. simpl. tauto.
      + constructor. }
  split; [exact H |].
  apply (submit_blank_title_alerts None true (Form.mkForm "  " "notes")
           (Resolved (mkResponse Fixture.task9)) initialState App.init H).
Defined.

(** X13. Whatever the fields hold, the form sends at most one request;
    when it sends one, its title is the trimmed title field and is not
    empty, its description the trimmed description field; it is a create
    when the form was opened without a task and an update addressed to
    the task's identifier otherwise. *)
Theorem submit_request_is_trimmed
    (task : option Task) (onCancel : bool) (st : Form.State) (res : Settled Task) :
  requests (fst (Form.handleSubmit task onCancel st res)) = [] \/
  (JsString.trim (Form.title_ st) <> "" /\
   requests (fst (Form.handleSubmit task onCancel st res))
   = [match task with
      | None =>
          ReqCreate (mkTaskData (JsString.trim (Form.title_ st))
                       (JsString.trim (Form.description_ st)))
      | Some t =>
          ReqUpdate (mkUpdateArg (_id t)
                       (mkTaskData (JsString.trim (Form.title_ st))
                          (JsString.trim (Form.description_ st))))
      end]).
Proof.
  unfold Form.handleSubmit.
  destruct (String.eqb (JsString.trim (Form.title_ st)) "") eqn:E.
  - left. reflexivity.
  - right. apply String.eqb_neq in E. split; [exact E |].
    cbv zeta. destruct task as [t |], res as [r | e], onCancel; reflexivity.
Qed.

Lemma handleSubmit_sends
    (task : option Task) (onCancel : bool) (st : Form.State) (res : Settled Task) :
  JsString.trim (Form.title_ st) <> "" ->
  Form.handleSubmit task onCancel st res
  = let taskData :=
      mkTaskData (JsString.trim (Form.title_ st))
        (JsString.trim (Form.description_ st)) in
    let rq :=
      match task with
      | Some t => ReqUpdate (mkUpdateArg (_id t) taskData)
      | None => ReqCreate taskData
      end in
    let settled :=
      match task with
      | Some t => Thunk.updateTask (mkUpdateArg (_id t) taskData) res
      | None => Thunk.addTask taskData res
      end in
    match unwrap settled with
    | None =>
        (PreventDefault :: dispatchThunk rq settled
           ++ (if onCancel then [OnCancel] else []),
         Form.mkForm "" "")
    | Some e =>
        (PreventDefault :: dispatchThunk rq settled
           ++ [ConsoleError "Error saving task:" e],
         st)
    end.
Proof.
  intros H. unfold Form.handleSubmit.
  apply String.eqb_neq in H. now rewrite H.
Qed.

Lemma padded_nonempty (core : list ascii) (a : ascii) :
  head core = Some a -> string_of_list_ascii core <> "".
Proof. destruct core; [discriminate | intros _; discriminate]. Qed.

(** X14. A title typed with white space around it is sent without it:
    when the title field is a text that starts and ends with a visible
    character, with white space before and after, the create request
    carries exactly that text as its title. *)
Theorem submit_strips_padding
    (onCancel : bool) (st : Form.State) (res : Settled Task)
    (w1 w2 core : list ascii) (a z : ascii) :
  list_ascii_of_string (Form.title_ st) = w1 ++ core ++ w2 ->
  JsString.blank_of JsString.white_space w1 ->
  JsString.blank_of JsString.white_space w2 ->
  head core = Some a -> head (rev core) = Some z ->
  JsString.visible a = true -> JsString.visible z = true ->
  requests (fst (Form.handleSubmit None onCancel st res))
  = [ReqCreate (mkTaskData (string_of_list_ascii core)
                  (JsString.trim (Form.description_ st)))].
Proof.
  intros E H1 H2 Ha Hz Va Vz.
  pose proof (trim_padded _ w1 w2 core a z E H1 H2 Ha Hz Va Vz) as Ht.
  rewrite handleSubmit_sends
    by (rewrite Ht; now apply (padded_nonempty core a)).
  cbv zeta. rewrite Ht.
  destruct res, onCancel; reflexivity.
Qed.

Lemma submit_strips_padding_witness :
  requests
    (fst (Form.handleSubmit None true (Form.mkForm "  Buy milk " "")
            (Resolved (mkResponse Fixture.task9))))
  = [ReqCreate (mkTaskData "Buy milk" "")].
Proof.
  assert (Hsp : In [" "%char] JsString.white_space).
  { unfold JsString.white_space. simpl. tauto. }
  apply (submit_strips_padding true (Form.mkForm "  Buy milk " "")
           (Resolved (mkResponse Fixture.task9))
           (list_ascii_of_string "  ") (list_ascii_of_string " ")
           (list_ascii_of_string "Buy milk") "B"%char "k"%char).
  - reflexivity.
  - apply (JsString.blank_cons _ [" "%char] [" "%char] Hsp).
    apply (JsString.blank_cons _ [" "%char] [] Hsp). constructor.
  - apply (JsString.blank_cons _ [" "%char] [] Hsp). constructor.
  - reflexivity.
  - reflexivity.
  - reflexivity.
  - reflexivity.
Defined.





(** X17. A submit that fails, in either mode: the two fields keep what
    was typed, the form stays open (the dismiss callback is not called),
    the failure is logged, the task list is what it was, loading is down
    and the error slot holds a non-empty message. *)
Theorem submit_failure_keeps_form
    (task : option Task) (onCancel : bool) (st : Form.State) (e : AxiosError)
    (store : TasksState) (app : App.State) :
  JsString.trim (Form.title_ st) <> "" ->
  snd (Form.handleSubmit task onCancel st (Thrown e)) = st /\
  App.after app (fst (Form.handleSubmit task onCancel st (Thrown e))) = app /\
  (exists msg : string,
      msg <> "" /\
      store_after store (fst (Form.handleSubmit task onCancel st (Thrown e)))
      = mkState (tasks store) false (Some msg) /\
      last (fst (Form.handleSubmit task onCancel st (Thrown e)))
      = Some (ConsoleError "Error saving task:" (Some msg))).
Proof.
  intros H. rewrite (handleSubmit_sends task onCancel st (Thrown e) H).
  cbv zeta.
  destruct task as [t |]; simpl unwrap; cbv iota.
  - repeat split.
    exists (Js.or (response_message e) "Failed to update task").
    split; [apply or_nonempty; discriminate | split; reflexivity].
  - repeat split.
    exists (Js.or (response_message e) "Failed to add task").
    split; [apply or_nonempty; discriminate | split; reflexivity].
Qed.

Lemma submit_failure_keeps_form_witness :
  JsString.trim "Test Task" <> "" /\
  snd (Form.handleSubmit None true (Form.mkForm "Test Task" "notes")
         (Thrown (Fixture.server_error "Validation error")))
  = Form.mkForm "Test Task" "notes".
Proof.
  assert (H : JsString.trim "Test Task" <> "") by (vm_compute; discriminate).
  split; [exact H |].
  apply (submit_failure_keeps_form None true (Form.mkForm "Test Task" "notes")
           (Fixture.server_error "Validation error") initialState App.init H).
Defined.

(** ** The rows *)

(** X18. The delete button of a row. When the user declines the
    confirmation nothing happens: no request, no action, the row not
    marked as deleting. When the user confirms and the request succeeds,
    the store holds no entry with the row's identifier, the other
    entries are untouched, and the row stays marked as deleting; the
    reply's body is not looked at. When the user confirms and the
    request fails, the list is what it was, the row is no longer marked
    as deleting, and the store records a non-empty error message. *)
Theorem row_delete
    (B : Type) (task : Task) (isDeleting : bool) (store : TasksState)
    (r : Response B) (e : AxiosError) :
  (Item.handleDelete task false (Resolved r) isDeleting
   = ([Confirm "Are you sure you want to delete this task?"], isDeleting) /\
   requests (fst (Item.handleDelete task false (Resolved r) isDeleting)) = [] /\
   store_after store (fst (Item.handleDelete task false (Resolved r) isDeleting))
   = store) /\
  (snd (Item.handleDelete task true (Resolved r) isDeleting) = true /\
   requests (fst (Item.handleDelete task true (Resolved r) isDeleting))
   = [ReqDelete (_id task)] /\
   store_after store (fst (Item.handleDelete task true (Resolved r) isDeleting))
   = mkState
       (Js.filter (fun t => negb (String.eqb (_id t) (_id task))) (tasks store))
       false None /\
   ~ In (_id task)
       (map _id
          (tasks (store_after store
                    (fst (Item.handleDelete task true (Resolved r) isDeleting)))))) /\
  (snd (Item.handleDelete (B := B) task true (Thrown e) isDeleting) = false /\
   exists msg : string,
     msg <> "" /\
     store_after store
       (fst (Item.handleDelete (B := B) task true (Thrown e) isDeleting))
     = mkState (tasks store) false (Some msg)).
Proof.
  split; [| split].
  - repeat split.
  - repeat split. simpl. apply filter_drops_id.
  - split; [reflexivity |].
    exists (Js.or (response_message e) "Failed to delete task").
    split; [apply or_nonempty; discriminate | reflexivity].
Qed.

(** X19. The toggle button of a row sends one toggle request for the
    row's identifier. When it succeeds the list keeps its length and its
    sequence of identifiers, and if the row's task is in the list and
    the server returns a record with the same identifier, that record
    stands where the first entry with this identifier stood. When it
    fails the list is what it was, the failure is logged and the store
    records a non-empty error message. *)
Theorem row_toggle
    (task : Task) (store : TasksState) (r : Response Task) (e : AxiosError) :
  requests (Item.handleToggle task (Resolved r)) = [ReqToggle (_id task)] /\
  map _id (tasks (store_after store (Item.handleToggle task (Resolved r))))
  = map _id (tasks store) /\
  (forall before after : list Task,
      tasks store = before ++ task :: after ->
      ~ In (_id task) (map _id before) ->
      _id (data r) = _id task ->
      tasks (store_after store (Item.handleToggle task (Resolved r)))
      = before ++ data r :: after) /\
  (exists msg : string,
      msg <> "" /\
      store_after store (Item.handleToggle task (Thrown e))
      = mkState (tasks store) false (Some msg) /\
      last (Item.handleToggle task (Thrown e))
      = Some (ConsoleError "Error toggling task:" (Some msg))).
Proof.
  split; [reflexivity | split; [| split]].
  - simpl. unfold Case.toggleTask_fulfilled.
    now rewrite replace_fulfilled_ids.
  - intros before after Et Hb Hid. simpl. unfold Case.toggleTask_fulfilled.
    apply (replace_first (Case.pending store) (data r) task before after).
    + exact Et.
    + now symmetry.
    + now rewrite Hid.
  - exists (Js.or (response_message e) "Failed to toggle task").
    split; [apply or_nonempty; discriminate | split; reflexivity].
Qed.

Lemma row_toggle_witness :
  tasks (store_after Fixture.loaded
           (Item.handleToggle Fixture.task2 (Resolved (mkResponse Fixture.task2_done))))
  = [Fixture.task1] ++ Fixture.task2_done :: [Fixture.task3].
Proof.
  destruct (row_toggle Fixture.task2 Fixture.loaded
              (mkResponse Fixture.task2_done) Fixture.network_error)
    as (_ & _ & H & _).
  apply H.
  - reflexivity.
  - simpl. intuition discriminate.
  - reflexivity.
Defined.

(** ** The root view *)

(** X20. Whatever sequence of clicks the root view receives (add, edit
    on some row, close), an edit target is set only while the form is
    shown; the form is shown exactly when the last click was an add or
    an edit, empty after an add (an earlier edit target is dropped) and
    on the row's task after an edit; with no click yet it is hidden. *)
Theorem modal_state_invariant (events : list App.Event) (ev : App.Event) :
  (App.showTaskForm (fold_left App.handle events App.init) = false ->
   App.editingTask (fold_left App.handle events App.init) = None) /\
  App.form (fold_left App.handle [] App.init) = None /\
  App.form (fold_left App.handle (events ++ [ev]) App.init)
  = match ev with
    | App.AddClicked => Some None
    | App.EditClicked task => Some (Some task)
    | App.FormClosed => None
    end.
Proof.
  split; [| split].
  - induction events as [|e events IH] using rev_ind.
    + reflexivity.
    + rewrite fold_left_app. simpl.
      destruct e; simpl; [discriminate | discriminate | reflexivity].
  - reflexivity.
  - rewrite fold_left_app. simpl. destruct ev; reflexivity.
Qed.

Lemma modal_state_invariant_witness :
  App.form (fold_left App.handle
              ([App.EditClicked Fixture.task1; App.FormClosed;
                App.EditClicked Fixture.task2] ++ [App.AddClicked])
              App.init)
  = Some None.
Proof.
  apply (modal_state_invariant
           [App.EditClicked Fixture.task1; App.FormClosed;
            App.EditClicked Fixture.task2] App.AddClicked).
Defined.

(** X21. A failure is recoverable from the banner: after a request that
    failed, closing the banner leaves the store with the task list it had
    before the request, loading down and no error, so the banner is gone
    and the list view renders that list again. *)
Theorem dismiss_after_failure (state : TasksState) (rq : Request) (e : AxiosError) :
  store_after state (dispatchThunk rq (failing rq e) ++ App.dismiss)
  = mkState (tasks state) false None /\
  App.banner (store_after state (dispatchThunk rq (failing rq e) ++ App.dismiss))
  = None /\
  TaskList (store_after state (dispatchThunk rq (failing rq e) ++ App.dismiss))
  = TaskList (mkState (tasks state) false None).
Proof.
  assert (Hs : store_after state (dispatchThunk rq (failing rq e) ++ App.dismiss)
               = mkState (tasks state) false None).
  { rewrite store_after_app. unfold dispatchThunk, App.dismiss. simpl store_after.
    rewrite failing_payload, rejected_of_case, pending_of_case. reflexivity. }
  rewrite Hs. repeat split.
Qed.

(** X22. A toggle and a delete of the same task may complete in either
    order: the list that results is the same, the one without any entry
    of that identifier. In particular a toggle (or an update) that
    completes after the delete does not bring the task back. *)
Theorem toggle_delete_commute (state : TasksState) (payload : Task) :
  tasks (tasksReducer (tasksReducer state (deleteTask_fulfilled (_id payload)))
           (toggleTask_fulfilled payload))
  = tasks (tasksReducer state (deleteTask_fulfilled (_id payload))) /\
  tasks (tasksReducer (tasksReducer state (toggleTask_fulfilled payload))
           (deleteTask_fulfilled (_id payload)))
  = tasks (tasksReducer state (deleteTask_fulfilled (_id payload))) /\
  tasks (tasksReducer (tasksReducer state (deleteTask_fulfilled (_id payload)))
           (updateTask_fulfilled payload))
  = tasks (tasksReducer state (deleteTask_fulfilled (_id payload))) /\
  ~ In (_id payload)
      (map _id (tasks (tasksReducer state (deleteTask_fulfilled (_id payload))))).
Proof.
  assert (Habs : ~ In (_id payload)
                   (map _id (tasks (tasksReducer state
                                      (deleteTask_fulfilled (_id payload)))))).
  { simpl. apply filter_drops_id. }
  split; [| split; [| split]].
  - apply replace_absent. exact Habs.
  - change (Js.filter (fun task => negb (String.eqb (_id task) (_id payload)))
              (tasks (Case.replace_fulfilled state payload))
            = Js.filter (fun task => negb (String.eqb (_id task) (_id payload)))
                (tasks state)).
    destruct (replace_fulfilled_cases state payload)
      as [[_ E] | (before & t & after & Et & Ht & Hb & E)]; rewrite E.
    + reflexivity.
    + rewrite Et.
      rewrite (delete_split (_id payload) before after payload eq_refl Hb).
      now rewrite (delete_split (_id payload) before after t Ht Hb).
  - apply replace_absent. exact Habs.
  - exact Habs.
Qed.
